(** * Drawing.tsx: stroke capture and snapshot history

    A shallow embedding of the [Drawing] React component
    (src/Drawing.tsx): its component state, the part of the canvas 2D
    API it calls, and its event handlers, followed by the properties of
    the undo/redo history.

    Conventions of the embedding.
    - Every handler runs to completion against the state of the render
      it was created in and yields the state of the next render; a
      render separates any two events.
    - JavaScript numbers: the history cursor, the stroke width and the
      dimensions of the canvas only ever hold integers and are integers
      here ([Z]); pointer and surface coordinates are IEEE 754 binary64
      numbers ([float]), with the rounding, the infinities and the NaN
      of the doubles the code computes with.
    - The pixel buffer of the canvas is represented by the sequence of
      paint operations applied to a blank buffer since it was last
      wiped.  Equal sequences give bit-identical pixels.
    - The PNG codec of the browser ([toDataURL], image decoding) is a
      parameter of the development. *)

From Stdlib Require Import ZArith List String Bool Lia.
From Stdlib Require Import Uint63 PrimFloat.
Import ListNotations.
Open Scope Z_scope.

(** ** Points, paths and paint *)

Record Point := mkPoint { x : float; y : float }.

(** A path is a list of subpaths, each a list of points joined by
    straight lines. *)
Definition Path := list (list Point).

(** One [ctx.stroke()]: the path that was stroked and the pen it was
    stroked with. *)
Record Paint := mkPaint {
  inkPath : Path;
  inkWidth : Z;
  inkStyle : string;
  inkCap : string;
  inkJoin : string
}.

Definition Bitmap := list Paint.

Definition blank : Bitmap := [].

(** The line segments of a subpath and of a path. *)
Fixpoint segmentsOf (sub : list Point) : list (Point * Point) :=
  match sub with
  | p :: ((q :: _) as rest) => (p, q) :: segmentsOf rest
  | _ => []
  end.

Definition pathSegments (p : Path) : list (Point * Point) :=
  flat_map segmentsOf p.

(** ** The canvas element and its 2D context *)

Record DOMRect := mkRect {
  left : float;
  top : float;
  rectWidth : float;
  rectHeight : float
}.

Record Context2D := mkCtx {
  lineCap : string;
  lineJoin : string;
  lineWidth : Z;
  strokeStyle : string;
  path : Path
}.

Record HTMLCanvasElement := mkCanvas {
  width : Z;
  height : Z;
  boundingClientRect : DOMRect;
  getContext : option Context2D;
  bitmap : Bitmap
}.

Record MouseEvent := mkMouse { clientX : float; clientY : float }.

Definition setLineCap (v : string) (c : Context2D) : Context2D :=
  mkCtx v (lineJoin c) (lineWidth c) (strokeStyle c) (path c).

Definition setLineJoin (v : string) (c : Context2D) : Context2D :=
  mkCtx (lineCap c) v (lineWidth c) (strokeStyle c) (path c).

Definition setLineWidth (v : Z) (c : Context2D) : Context2D :=
  mkCtx (lineCap c) (lineJoin c) v (strokeStyle c) (path c).

Definition setStrokeStyle (v : string) (c : Context2D) : Context2D :=
  mkCtx (lineCap c) (lineJoin c) (lineWidth c) v (path c).

Definition setPath (v : Path) (c : Context2D) : Context2D :=
  mkCtx (lineCap c) (lineJoin c) (lineWidth c) (strokeStyle c) v.

(** [ctx.beginPath()] empties the current path. *)
Definition beginPath (c : Context2D) : Context2D := setPath [] c.

(** [ctx.moveTo(x, y)] opens a new subpath at the point. *)
Definition moveTo (p : Point) (c : Context2D) : Context2D :=
  setPath (path c ++ [[p]]) c.

(** [ctx.lineTo(x, y)] joins the last point of the last subpath to the
    point; on an empty path it behaves as [moveTo]. *)
Fixpoint extendLast (p : Point) (pa : Path) : Path :=
  match pa with
  | [] => [[p]]
  | [sub] => [sub ++ [p]]
  | sub :: rest => sub :: extendLast p rest
  end.

Definition lineTo (p : Point) (c : Context2D) : Context2D :=
  setPath (extendLast p (path c)) c.

(** The paint laid down by [ctx.stroke()]: the whole current path, with
    the pen of the context. *)
Definition ink (c : Context2D) : Paint :=
  mkPaint (path c) (lineWidth c) (strokeStyle c) (lineCap c) (lineJoin c).

(** The canvas after calls on its context that leave the context as
    [c]. *)
Definition withContext (c : Context2D) (cv : HTMLCanvasElement)
  : HTMLCanvasElement :=
  mkCanvas (width cv) (height cv) (boundingClientRect cv) (Some c) (bitmap cv).

Definition withBitmap (b : Bitmap) (cv : HTMLCanvasElement)
  : HTMLCanvasElement :=
  mkCanvas (width cv) (height cv) (boundingClientRect cv) (getContext cv) b.

(** [ctx.stroke()] on the context [c] of the canvas. *)
Definition stroke (c : Context2D) (cv : HTMLCanvasElement)
  : HTMLCanvasElement :=
  withBitmap (bitmap cv ++ [ink c]) (withContext c cv).

(** [ctx.clearRect(0, 0, canvas.width, canvas.height)]: every pixel is
    erased. *)
Definition clearRect (cv : HTMLCanvasElement) : HTMLCanvasElement :=
  withBitmap blank cv.

(** [ctx.drawImage(img, 0, 0)]: the image is composited over the
    present content. *)
Definition drawImage (img : Bitmap) (cv : HTMLCanvasElement)
  : HTMLCanvasElement :=
  withBitmap (bitmap cv ++ img) cv.

(** ** Arrays *)

(** [a[i]] for a numeric index: [None] stands for [undefined]. *)
Definition elementAt {A : Type} (a : list A) (i : Z) : option A :=
  if i <? 0 then None else nth_error a (Z.to_nat i).

(** [a.slice(start, end)]: a negative bound counts from the end of the
    array, and both bounds are clamped to the array. *)
Definition clamp (len i : Z) : Z :=
  if i <? 0 then Z.max (len + i) 0 else Z.min i len.

Definition slice {A : Type} (a : list A) (start end_ : Z) : list A :=
  let len := Z.of_nat (List.length a) in
  let k := clamp len start in
  let final := clamp len end_ in
  firstn (Z.to_nat (Z.max (final - k) 0)) (skipn (Z.to_nat k) a).

(** ** Component state *)

Module DrawingHistory.
Record t := mk {
  dataURL : string;
  strokeWidth : Z;
  color : string
}.
End DrawingHistory.

(** The [useState] cells of the component, the canvas behind
    [canvasRef], and the images created by [loadHistoryState] whose
    [onload] has not fired yet, oldest first. *)
Record State := mkState {
  strokeWidth : Z;
  color : string;
  canvasRef : option HTMLCanvasElement;
  isDrawing : bool;
  history : list DrawingHistory.t;
  historyIndex : Z;
  loading : list string
}.

Definition setStrokeWidth (v : Z) (s : State) : State :=
  mkState v (color s) (canvasRef s) (isDrawing s) (history s)
          (historyIndex s) (loading s).

Definition setColor (v : string) (s : State) : State :=
  mkState (strokeWidth s) v (canvasRef s) (isDrawing s) (history s)
          (historyIndex s) (loading s).

Definition setCanvas (v : HTMLCanvasElement) (s : State) : State :=
  mkState (strokeWidth s) (color s) (Some v) (isDrawing s) (history s)
          (historyIndex s) (loading s).

Definition setIsDrawing (v : bool) (s : State) : State :=
  mkState (strokeWidth s) (color s) (canvasRef s) v (history s)
          (historyIndex s) (loading s).

Definition setHistory (v : list DrawingHistory.t) (s : State) : State :=
  mkState (strokeWidth s) (color s) (canvasRef s) (isDrawing s) v
          (historyIndex s) (loading s).

Definition setHistoryIndex (v : Z) (s : State) : State :=
  mkState (strokeWidth s) (color s) (canvasRef s) (isDrawing s) (history s)
          v (loading s).

Definition setLoading (v : list string) (s : State) : State :=
  mkState (strokeWidth s) (color s) (canvasRef s) (isDrawing s) (history s)
          (historyIndex s) v.

(** What a handler leaves behind: it returned, or it raised a
    [TypeError]; the state carries the updates made up to that point. *)
Inductive Outcome :=
| Done (s : State)
| Threw (s : State).

Definition stateOf (o : Outcome) : State :=
  match o with Done s => s | Threw s => s end.

(** The canvas as mounted: 800 by 600, displayed in [r], and the
    mount effect has set round caps and joins on its context. *)
Definition mountedCanvas (r : DOMRect) : HTMLCanvasElement :=
  mkCanvas 800 600 r
    (Some (setLineJoin "round" (setLineCap "round"
       (mkCtx "butt" "miter" 1 "#000000" []))))
    blank.

Definition initialState (r : DOMRect) : State :=
  mkState 8 "#000000" (Some (mountedCanvas r)) false [] (-1) [].

(** ** Handlers that do not involve the codec *)

(** An integer as the double that holds it (exact below 2^53). *)
Definition numberOf (z : Z) : float :=
  if z <? 0 then (- of_uint63 (Uint63.of_Z (- z)))%float
  else of_uint63 (Uint63.of_Z z).

Definition getMousePos (canvas : HTMLCanvasElement) (evt : MouseEvent)
  : Point :=
  let rect := boundingClientRect canvas in
  let scaleX := (numberOf (width canvas) / rectWidth rect)%float in
  let scaleY := (numberOf (height canvas) / rectHeight rect)%float in
  mkPoint ((clientX evt - left rect) * scaleX)%float
          ((clientY evt - top rect) * scaleY)%float.

Definition startDrawing (e : MouseEvent) (s : State) : State :=
  match canvasRef s with
  | Some canvas =>
      match getContext canvas with
      | Some ctx =>
          let pos := getMousePos canvas e in
          let ctx := moveTo pos (beginPath ctx) in
          setIsDrawing true (setCanvas (withContext ctx canvas) s)
      | None => s
      end
  | None => s
  end.

Definition draw (e : MouseEvent) (s : State) : State :=
  if negb (isDrawing s) then s
  else
    match canvasRef s with
    | Some canvas =>
        match getContext canvas with
        | Some ctx =>
            let pos := getMousePos canvas e in
            let ctx := setLineWidth (strokeWidth s) ctx in
            let ctx := setStrokeStyle (color s) ctx in
            let ctx := lineTo pos ctx in
            setCanvas (stroke ctx canvas) s
        | None => s
        end
    | None => s
    end.

(** [loadHistoryState(index)], called from a handler that read
    [history] from the state [r] of its render and has so far produced
    [s].  Reading [.dataURL] of [undefined] raises. *)
Definition loadHistoryState (r : State) (i : Z) (s : State) : Outcome :=
  match canvasRef s with
  | Some canvas =>
      match getContext canvas with
      | Some ctx =>
          match elementAt (history r) i with
          | Some h =>
              Done (setColor (DrawingHistory.color h)
                   (setStrokeWidth (DrawingHistory.strokeWidth h)
                   (setLoading (loading s ++ [DrawingHistory.dataURL h]) s)))
          | None => Threw s
          end
      | None => Done s
      end
  | None => Done s
  end.

Definition undo (s : State) : Outcome :=
  if 0 <? historyIndex s then
    loadHistoryState s (historyIndex s - 1)
      (setHistoryIndex (historyIndex s - 1) s)
  else Done s.

Definition redo (s : State) : Outcome :=
  if historyIndex s <? Z.of_nat (List.length (history s)) - 1 then
    loadHistoryState s (historyIndex s + 1)
      (setHistoryIndex (historyIndex s + 1) s)
  else Done s.

Definition clearCanvas (s : State) : State :=
  match canvasRef s with
  | Some canvas =>
      match getContext canvas with
      | Some ctx =>
          setHistoryIndex (-1) (setHistory [] (setCanvas (clearRect canvas) s))
      | None => s
      end
  | None => s
  end.

(** ** Handlers that involve the codec *)

Section Handlers.

(** [canvas.toDataURL()] and the decoding of an image from its
    [src]; [None] is a payload that does not decode, for which
    [onload] never fires. *)
Variable toDataURL : Bitmap -> string.
Variable decodeImage : string -> option Bitmap.

Definition endDrawing (s : State) : State :=
  match canvasRef s with
  | Some canvas =>
      let newHistory :=
        DrawingHistory.mk (toDataURL (bitmap canvas)) (strokeWidth s)
                          (color s) in
      setHistoryIndex (historyIndex s + 1)
        (setHistory
           (slice (history s) 0 (historyIndex s + 1) ++ [newHistory])
           (setIsDrawing false s))
  | None => s
  end.

(** The [img.onload] callback installed by [loadHistoryState]. *)
Definition onload (img : Bitmap) (s : State) : State :=
  match canvasRef s with
  | Some canvas => setCanvas (drawImage img (clearRect canvas)) s
  | None => s
  end.

(** The end of the load of an image with the given [src]. *)
Definition settle (src : string) (s : State) : State :=
  match decodeImage src with
  | Some img => onload img s
  | None => s
  end.

(** The [k]-th image in flight finishes loading. *)
Definition imageLoaded (k : nat) (s : State) : State :=
  match nth_error (loading s) k with
  | Some src =>
      settle src
        (setLoading (firstn k (loading s) ++ skipn (S k) (loading s)) s)
  | None => s
  end.

(** All images in flight finish loading, oldest first. *)
Definition flush (s : State) : State :=
  Nat.iter (List.length (loading s)) (imageLoaded 0) s.

(** ** The event loop *)

Inductive Event :=
| MouseDown (e : MouseEvent)
| MouseMove (e : MouseEvent)
| MouseUp
| MouseOut
| PickColor (c : string)
| SlideStrokeWidth (w : Z)
| ClickUndo
| ClickRedo
| ClickClear
| ImageLoad (k : nat).

Definition dispatch (ev : Event) (s : State) : State :=
  match ev with
  | MouseDown e => startDrawing e s
  | MouseMove e => draw e s
  | MouseUp => endDrawing s
  | MouseOut => endDrawing s
  | PickColor c => setColor c s
  | SlideStrokeWidth w => setStrokeWidth w s
  | ClickUndo => stateOf (undo s)
  | ClickRedo => stateOf (redo s)
  | ClickClear => clearCanvas s
  | ImageLoad k => imageLoaded k s
  end.

Definition run (evs : list Event) (s : State) : State :=
  fold_left (fun s ev => dispatch ev s) evs s.

Inductive reachable (r : DOMRect) : State -> Prop :=
| reach_init : reachable r (initialState r)
| reach_step : forall s ev,
    reachable r s -> reachable r (dispatch ev s).

End Handlers.

(** ** Properties of states *)

(** The bounds of the history cursor. *)
Definition historyInv (s : State) : Prop :=
  -1 <= historyIndex s <= Z.of_nat (List.length (history s)) - 1.

(** The canvas is mounted and has a 2D context. *)
Definition surfaceReady (s : State) : Prop :=
  exists canvas ctx, canvasRef s = Some canvas /\ getContext canvas = Some ctx.

(** The pixels of the canvas, when it is mounted. *)
Definition surface (s : State) : option Bitmap :=
  option_map bitmap (canvasRef s).

(** The snapshot under the cursor. *)
Definition current (s : State) : option DrawingHistory.t :=
  elementAt (history s) (historyIndex s).

(** Loads finishing oldest first, as a recursion over the list of
    sources. *)
Fixpoint settleAll (decodeImage : string -> option Bitmap)
         (srcs : list string) (s : State) : State :=
  match srcs with
  | [] => s
  | src :: rest => settleAll decodeImage rest (settle decodeImage src s)
  end.

(** [undo()], then [redo()], then every image in flight finishes
    loading, oldest first. *)
Definition undoThenRedo (decodeImage : string -> option Bitmap) (s : State)
  : State :=
  flush decodeImage (stateOf (redo (stateOf (undo s)))).

(** Same pixels and same tool state. *)
Definition sameView (s s' : State) : Prop :=
  surface s' = surface s /\
  strokeWidth s' = strokeWidth s /\
  color s' = color s.

(** With nothing in flight, the surface shows the snapshot under the
    cursor. *)
Definition rendersRequested (decodeImage : string -> option Bitmap)
           (s : State) : Prop :=
  loading s = [] ->
  exists h img,
    current s = Some h /\
    decodeImage (DrawingHistory.dataURL h) = Some img /\
    surface s = Some img.

(** The pen a segment is shown with: that of the last paint whose path
    runs along it. *)
Definition samePoint (p q : Point) : bool :=
  PrimFloat.eqb (x p) (x q) && PrimFloat.eqb (y p) (y q).

Definition sameSegment (a b : Point * Point) : bool :=
  samePoint (fst a) (fst b) && samePoint (snd a) (snd b).

Definition shownWith (seg : Point * Point) (b : Bitmap)
  : option (Z * string) :=
  option_map (fun p => (inkWidth p, inkStyle p))
    (find (fun p => existsb (sameSegment seg) (pathSegments (inkPath p)))
          (rev b)).

(** The last element of a list, and the point a [lineTo] starts
    from. *)
Fixpoint lastOf {A : Type} (l : list A) : option A :=
  match l with
  | [] => None
  | [a] => Some a
  | _ :: rest => lastOf rest
  end.

Definition lastPoint (pa : Path) : option Point :=
  match lastOf pa with
  | Some sub => lastOf sub
  | None => None
  end.

(** The path of the stroke in progress. *)
Definition strokePath (s : State) : Path :=
  match canvasRef s with
  | Some canvas =>
      match getContext canvas with
      | Some ctx => path ctx
      | None => []
      end
  | None => []
  end.

(** A [draw] leaves every segment already in the path shown as it
    was. *)
Definition paintsOnlyAhead (e : MouseEvent) (s : State) : Prop :=
  forall seg b b',
    surface s = Some b ->
    surface (draw e s) = Some b' ->
    existsb (sameSegment seg) (pathSegments (strokePath s)) = true ->
    shownWith seg b' = shownWith seg b.

(** The coordinate mapping as the specification words it. *)
Definition surfaceX (pointerX rectLeft logicalWidth displayedWidth : float)
  : float :=
  ((pointerX - rectLeft) * logicalWidth / displayedWidth)%float.

Definition surfaceY (pointerY rectTop logicalHeight displayedHeight : float)
  : float :=
  ((pointerY - rectTop) * logicalHeight / displayedHeight)%float.

(** The coordinate mapping with the scale factor computed first. *)
Definition scaledBy (pointer origin logical displayed : float) : float :=
  ((pointer - origin) * (logical / displayed))%float.

(** ** The rest of the component *)

(** The palette offered beside the canvas. *)
Definition colors : list string :=
  ["#000000"; "#FF0000"; "#00FF00"; "#0000FF"; "#FFFF00";
   "#FF00FF"; "#00FFFF"; "#FFA500"; "#800080"; "#A52A2A"]%string.

(** [downloadPNG]: the name and the [href] of the link that is clicked,
    when the canvas is mounted. *)
Definition downloadPNG (toDataURL : Bitmap -> string) (s : State)
  : option (string * string) :=
  match canvasRef s with
  | Some canvas => Some ("symptom-drawing.png"%string,
                         toDataURL (bitmap canvas))
  | None => None
  end.

(** Events as the controls of the page can produce them: a colour of
    the palette, a width of the slider, which ranges from 1 to 20. *)
Definition fromControls (ev : Event) : Prop :=
  match ev with
  | PickColor c => In c colors
  | SlideStrokeWidth w => 1 <= w <= 20
  | _ => True
  end.

Definition endsStroke (ev : Event) : bool :=
  match ev with
  | MouseUp | MouseOut => true
  | _ => false
  end.

Definition historyControl (ev : Event) : bool :=
  match ev with
  | ClickUndo | ClickRedo | ClickClear => true
  | _ => false
  end.

Definition touchesPixels (ev : Event) : bool :=
  match ev with
  | MouseMove _ | ClickClear | ImageLoad _ => true
  | _ => false
  end.

Definition changesPen (ev : Event) : bool :=
  match ev with
  | PickColor _ | SlideStrokeWidth _ | ClickUndo | ClickRedo => true
  | _ => false
  end.

(** The cursor is -1 on an empty history and on a snapshot otherwise. *)
Definition cursorOnSnapshot (s : State) : Prop :=
  (history s = [] /\ historyIndex s = -1) \/
  0 <= historyIndex s < Z.of_nat (List.length (history s)).

(** The canvas is the one that was mounted: 800 by 600, displayed in
    [r], with a context whose caps and joins are round. *)
Definition canvasAsMounted (r : DOMRect) (s : State) : Prop :=
  exists canvas ctx,
    canvasRef s = Some canvas /\
    getContext canvas = Some ctx /\
    width canvas = 800 /\
    height canvas = 600 /\
    boundingClientRect canvas = r /\
    lineCap ctx = "round"%string /\
    lineJoin ctx = "round"%string.

(** A pen the controls can produce. *)
Definition penOK (w : Z) (c : string) : Prop :=
  1 <= w <= 20 /\ In c colors.

Definition penInv (s : State) : Prop :=
  penOK (strokeWidth s) (color s) /\
  Forall (fun h => penOK (DrawingHistory.strokeWidth h)
                         (DrawingHistory.color h))
         (history s).

(** [redo()], then [undo()], then every image in flight finishes
    loading, oldest first. *)
Definition redoThenUndo (decodeImage : string -> option Bitmap) (s : State)
  : State :=
  flush decodeImage (stateOf (undo (stateOf (redo s)))).

(** Pointer moves, one after the other. *)
Definition drawAll (es : list MouseEvent) (s : State) : State :=
  fold_left (fun s e => draw e s) es s.

(** ** A session for the examples *)

Module Sample.

Definition red := "#FF0000"%string.
Definition green := "#00FF00"%string.
Definition blue := "#0000FF"%string.

(** The canvas is displayed at half its logical size. *)
Definition rect : DOMRect := mkRect 8 16 400 300.

Definition at_ (cx cy : float) : MouseEvent := mkMouse cx cy.

(** The canvas displayed 300 wide and 225 high, at the origin of the
    viewport. *)
Definition narrow : DOMRect := mkRect 0 0 300 225.

(** A stand-in for the PNG codec: it names an image after the colours
    painted on it and decodes the names of the images of [album]. *)
Definition toDataURL (b : Bitmap) : string :=
  ("data:image/png," ++ concat ";" (map inkStyle b))%string.

Definition decodeFrom (album : list Bitmap) (src : string)
  : option Bitmap :=
  find (fun b => String.eqb (toDataURL b) src) album.

Definition strokeA : list Event :=
  [PickColor red; SlideStrokeWidth 4;
   MouseDown (at_ 18 26); MouseMove (at_ 28 36); MouseUp].

Definition strokeB : list Event :=
  [PickColor blue; SlideStrokeWidth 10;
   MouseDown (at_ 58 26); MouseMove (at_ 68 36); MouseUp].

Definition strokeC : list Event :=
  [PickColor green; SlideStrokeWidth 2;
   MouseDown (at_ 98 26); MouseMove (at_ 108 36); MouseUp].

Definition sheet (evs : list Event) : Bitmap :=
  match surface (run toDataURL (decodeFrom []) evs (initialState rect)) with
  | Some b => b
  | None => blank
  end.

Definition album : list Bitmap :=
  [blank; sheet strokeA; sheet (strokeA ++ strokeB);
   sheet (strokeA ++ strokeB ++ strokeC)].

Definition decodeImage : string -> option Bitmap := decodeFrom album.

Definition session (evs : list Event) : State :=
  run toDataURL decodeImage evs (initialState rect).

(** Two strokes, then the pen is changed without drawing. *)
Definition retouched : State :=
  session (strokeA ++ strokeB ++ [PickColor green; SlideStrokeWidth 3]).

(** Three strokes, two undos, and the two loads finishing newest
    first. *)
Definition raced : State :=
  session (strokeA ++ strokeB ++ strokeC ++
           [ClickUndo; ClickUndo; ImageLoad 1; ImageLoad 0]).

(** A stroke ended by releasing the button, after which the pointer
    leaves the canvas. *)
Definition released : State :=
  session [MouseDown (at_ 18 26); MouseMove (at_ 28 36); MouseUp].

(** A stroke in progress whose pen is changed after its first
    segment. *)
Definition midStroke : State :=
  session [PickColor red; SlideStrokeWidth 4;
           MouseDown (at_ 18 26); MouseMove (at_ 28 36)].

Definition repenned : State :=
  setStrokeWidth 10 (setColor blue midStroke).

Definition firstSegment : Point * Point :=
  (mkPoint 20 20, mkPoint 40 40).

(** Three strokes and one undo whose image has loaded. *)
Definition undone : State :=
  session (strokeA ++ strokeB ++ strokeC ++ [ClickUndo; ImageLoad 0]).

(** The canvas of a state of the session. *)
Definition canvasOf (s : State) : HTMLCanvasElement :=
  match canvasRef s with
  | Some canvas => canvas
  | None => mountedCanvas rect
  end.

(** Two strokes and an undo whose image has not loaded yet. *)
Definition undoing : State :=
  session (strokeA ++ strokeB ++ [ClickUndo]).

End Sample.

(** * Properties *)

(** ** Arrays *)

Lemma slice_prefix {A : Type} (a : list A) (e : Z) :
  0 <= e <= Z.of_nat (List.length a) ->
  slice a 0 e = firstn (Z.to_nat e) a.
Proof.
  intros He. unfold slice, clamp.
  destruct (Z.ltb_spec e 0) as [Hneg | _]; [lia |].
  cbn [Z.ltb Z.compare].
  replace (Z.min 0 (Z.of_nat (List.length a))) with 0 by lia.
  replace (Z.max (Z.min e (Z.of_nat (List.length a)) - 0) 0) with e by lia.
  reflexivity.
Qed.

Lemma elementAt_Some {A : Type} (a : list A) (i : Z) (v : A) :
  elementAt a i = Some v -> 0 <= i < Z.of_nat (List.length a).
Proof.
  unfold elementAt. destruct (Z.ltb_spec i 0) as [| Hi]; [discriminate |].
  intros Hn.
  assert (nth_error a (Z.to_nat i) <> None) as Hs by congruence.
  apply nth_error_Some in Hs. lia.
Qed.

Lemma elementAt_in_range {A : Type} (a : list A) (i : Z) :
  0 <= i < Z.of_nat (List.length a) -> exists v, elementAt a i = Some v.
Proof.
  intros Hi. unfold elementAt.
  destruct (Z.ltb_spec i 0) as [| _]; [lia |].
  destruct (nth_error a (Z.to_nat i)) as [v |] eqn:E; [eauto |].
  apply nth_error_None in E. lia.
Qed.

(** ** What each handler leaves alone *)

Lemma loadHistoryState_frame (r : State) (i : Z) (s : State) :
  let s' := stateOf (loadHistoryState r i s) in
  history s' = history s /\
  historyIndex s' = historyIndex s /\
  isDrawing s' = isDrawing s /\
  canvasRef s' = canvasRef s.
Proof.
  unfold loadHistoryState.
  destruct (canvasRef s) as [canvas |] eqn:Ec; cbn; [| now rewrite Ec].
  destruct (getContext canvas) as [ctx |]; cbn; [| now rewrite Ec].
  destruct (elementAt (history r) i) as [h |]; cbn; now rewrite ?Ec.
Qed.

Lemma undo_frame (s : State) :
  history (stateOf (undo s)) = history s /\
  isDrawing (stateOf (undo s)) = isDrawing s /\
  canvasRef (stateOf (undo s)) = canvasRef s.
Proof.
  unfold undo. destruct (0 <? historyIndex s); cbn; [| tauto].
  destruct (loadHistoryState_frame s (historyIndex s - 1)
              (setHistoryIndex (historyIndex s - 1) s)) as (H1 & _ & H3 & H4).
  cbn in *. tauto.
Qed.

Lemma redo_frame (s : State) :
  history (stateOf (redo s)) = history s /\
  isDrawing (stateOf (redo s)) = isDrawing s /\
  canvasRef (stateOf (redo s)) = canvasRef s.
Proof.
  unfold redo.
  destruct (historyIndex s <? Z.of_nat (List.length (history s)) - 1);
    cbn; [| tauto].
  destruct (loadHistoryState_frame s (historyIndex s + 1)
              (setHistoryIndex (historyIndex s + 1) s)) as (H1 & _ & H3 & H4).
  cbn in *. tauto.
Qed.

Lemma settle_frame (decodeImage : string -> option Bitmap)
      (src : string) (s : State) :
  let s' := settle decodeImage src s in
  history s' = history s /\
  historyIndex s' = historyIndex s /\
  strokeWidth s' = strokeWidth s /\
  color s' = color s /\
  isDrawing s' = isDrawing s /\
  loading s' = loading s.
Proof.
  unfold settle, onload.
  destruct (decodeImage src); [| cbn; tauto].
  destruct (canvasRef s); cbn; tauto.
Qed.

Lemma imageLoaded_frame (decodeImage : string -> option Bitmap)
      (k : nat) (s : State) :
  let s' := imageLoaded decodeImage k s in
  history s' = history s /\
  historyIndex s' = historyIndex s /\
  strokeWidth s' = strokeWidth s /\
  color s' = color s /\
  isDrawing s' = isDrawing s.
Proof.
  unfold imageLoaded.
  destruct (nth_error (loading s) k) as [src |]; [| cbn; tauto].
  destruct (settle_frame decodeImage src
              (setLoading (firstn k (loading s) ++ skipn (S k) (loading s)) s))
    as (H1 & H2 & H3 & H4 & H5 & _).
  cbn in *. tauto.
Qed.

Lemma startDrawing_frame (e : MouseEvent) (s : State) :
  history (startDrawing e s) = history s /\
  historyIndex (startDrawing e s) = historyIndex s.
Proof.
  unfold startDrawing.
  destruct (canvasRef s) as [canvas |]; [| tauto].
  destruct (getContext canvas); cbn; tauto.
Qed.

Lemma draw_frame (e : MouseEvent) (s : State) :
  history (draw e s) = history s /\
  historyIndex (draw e s) = historyIndex s.
Proof.
  unfold draw.
  destruct (negb (isDrawing s)); [tauto |].
  destruct (canvasRef s) as [canvas |]; [| tauto].
  destruct (getContext canvas); cbn; tauto.
Qed.

(** ** The bounds of the cursor *)

Lemma historyInv_initial (r : DOMRect) : historyInv (initialState r).
Proof. unfold historyInv; cbn; lia. Qed.

Lemma historyInv_endDrawing (toDataURL : Bitmap -> string) (s : State) :
  historyInv s -> historyInv (endDrawing toDataURL s).
Proof.
  unfold historyInv, endDrawing. intros Hs.
  destruct (canvasRef s) as [canvas |]; [| exact Hs].
  cbn. rewrite slice_prefix by lia.
  rewrite length_app, length_firstn. cbn. lia.
Qed.

Lemma historyInv_undo (s : State) :
  historyInv s -> historyInv (stateOf (undo s)).
Proof.
  unfold historyInv, undo. intros Hs.
  destruct (Z.ltb_spec 0 (historyIndex s)) as [Hpos |]; [| exact Hs].
  destruct (loadHistoryState_frame s (historyIndex s - 1)
              (setHistoryIndex (historyIndex s - 1) s)) as (H1 & H2 & _).
  cbn in H1, H2. rewrite H1, H2. lia.
Qed.

Lemma historyInv_redo (s : State) :
  historyInv s -> historyInv (stateOf (redo s)).
Proof.
  unfold historyInv, redo. intros Hs.
  destruct (Z.ltb_spec (historyIndex s)
              (Z.of_nat (List.length (history s)) - 1)) as [Hlt |];
    [| exact Hs].
  destruct (loadHistoryState_frame s (historyIndex s + 1)
              (setHistoryIndex (historyIndex s + 1) s)) as (H1 & H2 & _).
  cbn in H1, H2. rewrite H1, H2. lia.
Qed.

Lemma historyInv_clearCanvas (s : State) :
  historyInv s -> historyInv (clearCanvas s).
Proof.
  unfold historyInv, clearCanvas. intros Hs.
  destruct (canvasRef s) as [canvas |]; [| exact Hs].
  destruct (getContext canvas); [cbn; lia | exact Hs].
Qed.

Lemma historyInv_dispatch (toDataURL : Bitmap -> string)
      (decodeImage : string -> option Bitmap) (ev : Event) (s : State) :
  historyInv s -> historyInv (dispatch toDataURL decodeImage ev s).
Proof.
  intros Hs. destruct ev as [e | e | | | c | w | | | | k]; cbn.
  - unfold historyInv.
    destruct (startDrawing_frame e s) as [-> ->]. exact Hs.
  - unfold historyInv. destruct (draw_frame e s) as [-> ->]. exact Hs.
  - now apply historyInv_endDrawing.
  - now apply historyInv_endDrawing.
  - exact Hs.
  - exact Hs.
  - now apply historyInv_undo.
  - now apply historyInv_redo.
  - now apply historyInv_clearCanvas.
  - unfold historyInv.
    destruct (imageLoaded_frame decodeImage k s) as (-> & -> & _). exact Hs.
Qed.

Lemma historyInv_reachable (toDataURL : Bitmap -> string)
      (decodeImage : string -> option Bitmap) (r : DOMRect) (s : State) :
  reachable toDataURL decodeImage r s -> historyInv s.
Proof.
  induction 1 as [| s ev _ IH].
  - apply historyInv_initial.
  - now apply historyInv_dispatch.
Qed.

(** ** Ending a stroke *)

(** C1. A stroke is drawn and the button is released, which commits one
    snapshot and leaves the renderer idle; the pointer then leaves the
    canvas.  The second [endDrawing] commits again: the history holds
    two equal snapshots and the cursor has moved to the second. *)
Theorem C1_redundant_endDrawing_commits :
  let s := Sample.released in
  let s' := dispatch Sample.toDataURL Sample.decodeImage MouseOut s in
  isDrawing s = false /\
  List.length (history s) = 1%nat /\
  historyIndex s = 0 /\
  List.length (history s') = 2%nat /\
  historyIndex s' = 1 /\
  elementAt (history s') 1 = elementAt (history s') 0.
Proof. vm_compute. repeat split. Qed.

(** C2. On a mounted canvas and with the cursor within its bounds,
    [endDrawing] keeps the first [historyIndex + 1] snapshots, appends
    the snapshot of the canvas and of the current pen, and advances the
    cursor by one; the cursor is then on the last snapshot and [redo]
    changes nothing. *)
Theorem C2_commit_truncates_then_appends
        (toDataURL : Bitmap -> string) (s : State)
        (canvas : HTMLCanvasElement) :
  canvasRef s = Some canvas ->
  historyInv s ->
  let s' := endDrawing toDataURL s in
  history s' =
    firstn (Z.to_nat (historyIndex s + 1)) (history s) ++
    [DrawingHistory.mk (toDataURL (bitmap canvas)) (strokeWidth s) (color s)]
  /\ historyIndex s' = historyIndex s + 1
  /\ historyIndex s' = Z.of_nat (List.length (history s')) - 1
  /\ redo s' = Done s'.
Proof.
  intros Hc Hinv s'.
  assert (Hh : history s' =
    firstn (Z.to_nat (historyIndex s + 1)) (history s) ++
    [DrawingHistory.mk (toDataURL (bitmap canvas)) (strokeWidth s) (color s)]).
  { subst s'. unfold endDrawing. rewrite Hc. cbn.
    unfold historyInv in Hinv. now rewrite slice_prefix by lia. }
  assert (Hi : historyIndex s' = historyIndex s + 1).
  { subst s'. unfold endDrawing. now rewrite Hc. }
  assert (Hl : historyIndex s' = Z.of_nat (List.length (history s')) - 1).
  { rewrite Hh, Hi, length_app, length_firstn. cbn.
    unfold historyInv in Hinv. lia. }
  repeat split; try assumption.
  unfold redo. rewrite <- Hl, Z.ltb_irrefl. reflexivity.
Qed.

Lemma C2_commit_truncates_then_appends_witness :
  let s := Sample.session (Sample.strokeA ++ Sample.strokeB ++ [ClickUndo]) in
  let s' := endDrawing Sample.toDataURL s in
  exists canvas,
    canvasRef s = Some canvas /\
    historyInv s /\
    history s' =
      firstn (Z.to_nat (historyIndex s + 1)) (history s) ++
      [DrawingHistory.mk (Sample.toDataURL (bitmap canvas))
                         (strokeWidth s) (color s)] /\
    historyIndex s' = historyIndex s + 1 /\
    historyIndex s' = Z.of_nat (List.length (history s')) - 1 /\
    redo s' = Done s'.
Proof.
  intros s s'. eexists.
  split; [vm_compute; reflexivity |].
  split; [vm_compute; split; discriminate |].
  apply (C2_commit_truncates_then_appends Sample.toDataURL s).
  - vm_compute; reflexivity.
  - vm_compute; split; discriminate.
Defined.

(** ** The cursor stays within the history *)

(** C4. [-1 <= historyIndex <= length(history) - 1] holds in the initial
    state, is preserved by [endDrawing], [undo], [redo] and
    [clearCanvas], and so holds in every state the component reaches. *)
Theorem C4_cursor_within_bounds
        (toDataURL : Bitmap -> string)
        (decodeImage : string -> option Bitmap) (r : DOMRect) :
  historyInv (initialState r) /\
  (forall s, historyInv s ->
     historyInv (endDrawing toDataURL s) /\
     historyInv (stateOf (undo s)) /\
     historyInv (stateOf (redo s)) /\
     historyInv (clearCanvas s)) /\
  (forall s, reachable toDataURL decodeImage r s -> historyInv s).
Proof.
  split; [apply historyInv_initial |]. split.
  - intros s Hs.
    split; [now apply historyInv_endDrawing |].
    split; [now apply historyInv_undo |].
    split; [now apply historyInv_redo |].
    now apply historyInv_clearCanvas.
  - intros s. apply historyInv_reachable.
Qed.

Lemma C4_cursor_within_bounds_witness :
  let s := Sample.retouched in
  historyInv s /\
  historyInv (endDrawing Sample.toDataURL s) /\
  historyInv (stateOf (undo s)) /\
  historyInv (stateOf (redo s)) /\
  historyInv (clearCanvas s).
Proof.
  intros s.
  assert (Hs : historyInv s) by (vm_compute; split; discriminate).
  split; [exact Hs |].
  exact (proj1 (proj2 (C4_cursor_within_bounds
                         Sample.toDataURL Sample.decodeImage Sample.rect))
               s Hs).
Defined.

(** ** Undo and redo at the ends of the history *)

(** C6. With the cursor at 0, or on an empty history with the cursor at
    -1, [undo] returns normally and leaves the whole state as it was;
    with the cursor on the last snapshot, so does [redo]. *)
Theorem C6_undo_redo_at_the_ends (s : State) :
  (historyIndex s = 0 \/ (history s = [] /\ historyIndex s = -1) ->
   undo s = Done s) /\
  (historyIndex s = Z.of_nat (List.length (history s)) - 1 ->
   redo s = Done s).
Proof.
  split.
  - intros [H0 | [_ Hm]]; unfold undo; rewrite ?H0, ?Hm; reflexivity.
  - intros Hl. unfold redo. rewrite <- Hl, Z.ltb_irrefl. reflexivity.
Qed.

Lemma C6_undo_redo_at_the_ends_witness :
  let first := Sample.session Sample.strokeA in
  let empty := initialState Sample.rect in
  (historyIndex first = 0 /\ undo first = Done first) /\
  (history empty = [] /\ historyIndex empty = -1 /\ undo empty = Done empty) /\
  (historyIndex Sample.retouched =
     Z.of_nat (List.length (history Sample.retouched)) - 1 /\
   redo Sample.retouched = Done Sample.retouched).
Proof.
  intros first empty.
  split; [split; [reflexivity |] | split; [split; [reflexivity | split;
    [reflexivity |]] | split; [reflexivity |]]].
  - apply (proj1 (C6_undo_redo_at_the_ends first)). left. reflexivity.
  - apply (proj1 (C6_undo_redo_at_the_ends empty)).
    right. split; reflexivity.
  - apply (proj2 (C6_undo_redo_at_the_ends Sample.retouched)). reflexivity.
Defined.

(** ** Clearing *)

(** C7. On a mounted canvas, [clearCanvas] empties the history, puts the
    cursor at -1 and leaves the surface blank; no snapshot of the blank
    surface is recorded, and an [undo] that follows changes nothing. *)
Theorem C7_clear_resets_and_is_not_undoable (s : State) :
  surfaceReady s ->
  let s' := clearCanvas s in
  history s' = [] /\
  historyIndex s' = -1 /\
  surface s' = Some blank /\
  undo s' = Done s'.
Proof.
  intros (canvas & ctx & Hc & Hx) s'. subst s'.
  unfold clearCanvas. rewrite Hc, Hx. repeat split.
Qed.

Lemma C7_clear_resets_and_is_not_undoable_witness :
  let s := Sample.retouched in
  let s' := clearCanvas s in
  surfaceReady s /\
  history s' = [] /\
  historyIndex s' = -1 /\
  surface s' = Some blank /\
  undo s' = Done s'.
Proof.
  intros s s'.
  assert (Hs : surfaceReady s).
  { unfold surfaceReady. do 2 eexists. split; vm_compute; reflexivity. }
  split; [exact Hs |].
  exact (C7_clear_resets_and_is_not_undoable s Hs).
Defined.

(** ** Undo and redo leave the history alone *)

(** C10. [undo] and [redo] leave the sequence of snapshots and the
    drawing flag as they were, and so does the completion of any image
    load they started; what they change is the cursor, the pen and,
    through the load, the pixels. *)
Theorem C10_undo_redo_keep_history
        (decodeImage : string -> option Bitmap) (s : State) (k : nat) :
  history (stateOf (undo s)) = history s /\
  history (stateOf (redo s)) = history s /\
  isDrawing (stateOf (undo s)) = isDrawing s /\
  isDrawing (stateOf (redo s)) = isDrawing s /\
  history (imageLoaded decodeImage k s) = history s /\
  historyIndex (imageLoaded decodeImage k s) = historyIndex s /\
  isDrawing (imageLoaded decodeImage k s) = isDrawing s.
Proof.
  destruct (undo_frame s) as (Hu1 & Hu2 & _).
  destruct (redo_frame s) as (Hr1 & Hr2 & _).
  destruct (imageLoaded_frame decodeImage k s) as (Hi1 & Hi2 & _ & _ & Hi5).
  repeat split; assumption.
Qed.

(** ** Image loads *)

Lemma settle_setLoading (decodeImage : string -> option Bitmap)
      (src : string) (l : list string) (s : State) :
  settle decodeImage src (setLoading l s) =
  setLoading l (settle decodeImage src s).
Proof.
  unfold settle, onload. destruct (decodeImage src); [| reflexivity].
  cbn. destruct (canvasRef s); reflexivity.
Qed.

Lemma settleAll_setLoading (decodeImage : string -> option Bitmap)
      (srcs l : list string) (s : State) :
  settleAll decodeImage srcs (setLoading l s) =
  setLoading l (settleAll decodeImage srcs s).
Proof.
  revert s. induction srcs as [| src rest IH]; intros s; cbn.
  - reflexivity.
  - now rewrite settle_setLoading, IH.
Qed.

Lemma settleAll_app (decodeImage : string -> option Bitmap)
      (l1 l2 : list string) (s : State) :
  settleAll decodeImage (l1 ++ l2) s =
  settleAll decodeImage l2 (settleAll decodeImage l1 s).
Proof.
  revert s. induction l1 as [| src rest IH]; intros s; cbn; auto.
Qed.

Lemma settleAll_frame (decodeImage : string -> option Bitmap)
      (srcs : list string) (s : State) :
  let s' := settleAll decodeImage srcs s in
  history s' = history s /\
  historyIndex s' = historyIndex s /\
  strokeWidth s' = strokeWidth s /\
  color s' = color s /\
  isDrawing s' = isDrawing s /\
  loading s' = loading s.
Proof.
  revert s. induction srcs as [| src rest IH]; intros s; cbn.
  - tauto.
  - destruct (IH (settle decodeImage src s)) as (H1 & H2 & H3 & H4 & H5 & H6).
    destruct (settle_frame decodeImage src s) as (K1 & K2 & K3 & K4 & K5 & K6).
    cbn in *. repeat split; congruence.
Qed.

Lemma settle_mounted (decodeImage : string -> option Bitmap)
      (src : string) (s : State) (canvas : HTMLCanvasElement) :
  canvasRef s = Some canvas ->
  exists canvas', canvasRef (settle decodeImage src s) = Some canvas'.
Proof.
  intros Hc. unfold settle, onload.
  destruct (decodeImage src); rewrite ?Hc; cbn; eauto.
Qed.

Lemma settleAll_mounted (decodeImage : string -> option Bitmap)
      (srcs : list string) (s : State) (canvas : HTMLCanvasElement) :
  canvasRef s = Some canvas ->
  exists canvas', canvasRef (settleAll decodeImage srcs s) = Some canvas'.
Proof.
  revert s canvas. induction srcs as [| src rest IH]; intros s canvas Hc; cbn.
  - eauto.
  - destruct (settle_mounted decodeImage src s canvas Hc) as [canvas' Hc'].
    eapply IH, Hc'.
Qed.

(** A load that completes replaces the pixels by its image, whatever
    was requested since. *)
Lemma settle_surface (decodeImage : string -> option Bitmap)
      (src : string) (img : Bitmap) (s : State)
      (canvas : HTMLCanvasElement) :
  canvasRef s = Some canvas ->
  decodeImage src = Some img ->
  surface (settle decodeImage src s) = Some img.
Proof.
  intros Hc Hd. unfold settle, onload. now rewrite Hd, Hc.
Qed.

Lemma imageLoaded_head (decodeImage : string -> option Bitmap)
      (src : string) (rest : list string) (s : State) :
  loading s = src :: rest ->
  imageLoaded decodeImage 0 s = settle decodeImage src (setLoading rest s).
Proof.
  intros Hl. unfold imageLoaded. now rewrite Hl.
Qed.

Lemma iter_imageLoaded (decodeImage : string -> option Bitmap)
      (l : list string) (s : State) :
  loading s = l ->
  Nat.iter (List.length l) (imageLoaded decodeImage 0) s =
  setLoading [] (settleAll decodeImage l s).
Proof.
  revert s. induction l as [| src rest IH]; intros s Hl.
  - cbn. destruct s; cbn in *; now subst.
  - cbn [List.length]. rewrite Nat.iter_succ_r.
    rewrite (imageLoaded_head decodeImage src rest s Hl).
    rewrite IH.
    + cbn [settleAll].
      now rewrite settle_setLoading, settleAll_setLoading.
    + destruct (settle_frame decodeImage src (setLoading rest s))
        as (_ & _ & _ & _ & _ & H6).
      exact H6.
Qed.

Lemma flush_settleAll (decodeImage : string -> option Bitmap) (s : State) :
  flush decodeImage s = setLoading [] (settleAll decodeImage (loading s) s).
Proof. unfold flush. now apply iter_imageLoaded. Qed.

(** Once every load has completed in the order of issue, the pixels
    are those of the image requested last. *)
Lemma flush_last (decodeImage : string -> option Bitmap)
      (s : State) (canvas : HTMLCanvasElement)
      (older : list string) (src : string) (img : Bitmap) :
  canvasRef s = Some canvas ->
  loading s = older ++ [src] ->
  decodeImage src = Some img ->
  let s' := flush decodeImage s in
  surface s' = Some img /\
  loading s' = [] /\
  history s' = history s /\
  historyIndex s' = historyIndex s /\
  strokeWidth s' = strokeWidth s /\
  color s' = color s.
Proof.
  intros Hc Hl Hd s'. subst s'. rewrite flush_settleAll, Hl, settleAll_app.
  cbn [settleAll].
  destruct (settleAll_mounted decodeImage older s canvas Hc) as [canvas' Hc'].
  destruct (settleAll_frame decodeImage older s) as (H1 & H2 & H3 & H4 & _).
  destruct (settle_frame decodeImage src (settleAll decodeImage older s))
    as (K1 & K2 & K3 & K4 & _).
  pose proof (settle_surface decodeImage src img _ canvas' Hc' Hd) as Hs.
  cbn in *. unfold surface in *. cbn.
  repeat split; congruence.
Qed.

(** ** Undo and redo within the history *)

Lemma undo_effective (s : State) (h : DrawingHistory.t) :
  surfaceReady s ->
  0 < historyIndex s ->
  elementAt (history s) (historyIndex s - 1) = Some h ->
  undo s =
  Done (setColor (DrawingHistory.color h)
       (setStrokeWidth (DrawingHistory.strokeWidth h)
       (setLoading (loading s ++ [DrawingHistory.dataURL h])
       (setHistoryIndex (historyIndex s - 1) s)))).
Proof.
  intros (canvas & ctx & Hc & Hx) Hpos Hh. unfold undo.
  destruct (Z.ltb_spec 0 (historyIndex s)); [| lia].
  unfold loadHistoryState. cbn. now rewrite Hc, Hx, Hh.
Qed.

Lemma redo_effective (s : State) (h : DrawingHistory.t) :
  surfaceReady s ->
  historyIndex s < Z.of_nat (List.length (history s)) - 1 ->
  elementAt (history s) (historyIndex s + 1) = Some h ->
  redo s =
  Done (setColor (DrawingHistory.color h)
       (setStrokeWidth (DrawingHistory.strokeWidth h)
       (setLoading (loading s ++ [DrawingHistory.dataURL h])
       (setHistoryIndex (historyIndex s + 1) s)))).
Proof.
  intros (canvas & ctx & Hc & Hx) Hlt Hh. unfold redo.
  destruct (Z.ltb_spec (historyIndex s)
              (Z.of_nat (List.length (history s)) - 1)); [| lia].
  unfold loadHistoryState. cbn. now rewrite Hc, Hx, Hh.
Qed.

(** C3, as stated, fails: with two strokes committed and the pen then
    changed without drawing, [undo] followed by [redo] leaves the pen of
    the second snapshot, not the pen in use before the [undo]. *)
Lemma C3_changed_pen_is_not_restored :
  0 < historyIndex Sample.retouched /\
  ~ sameView Sample.retouched
      (undoThenRedo Sample.decodeImage Sample.retouched).
Proof.
  split; [reflexivity |].
  intros (_ & Hw & _). vm_compute in Hw. discriminate.
Qed.

(** C3, amended.  On a mounted canvas with the cursor above 0 on a
    snapshot that decodes, [undo] then [redo], with the image loads
    completing in the order of issue, leave the history and the cursor
    as they were, the surface showing that snapshot and the pen recorded
    in it.  This is the view before the [undo] when that view was the
    snapshot's. *)
Theorem C3_undo_redo_returns_to_snapshot
        (decodeImage : string -> option Bitmap) (s : State)
        (h : DrawingHistory.t) (img : Bitmap) :
  surfaceReady s ->
  0 < historyIndex s ->
  current s = Some h ->
  decodeImage (DrawingHistory.dataURL h) = Some img ->
  let s' := undoThenRedo decodeImage s in
  history s' = history s /\
  historyIndex s' = historyIndex s /\
  surface s' = Some img /\
  strokeWidth s' = DrawingHistory.strokeWidth h /\
  color s' = DrawingHistory.color h /\
  (surface s = Some img ->
   strokeWidth s = DrawingHistory.strokeWidth h ->
   color s = DrawingHistory.color h ->
   sameView s s').
Proof.
  intros Hready Hpos Hcur Hd s'.
  pose proof (elementAt_Some _ _ _ Hcur) as Hrange.
  destruct (elementAt_in_range (history s) (historyIndex s - 1)) as [h0 Hh0];
    [lia |].
  pose proof Hready as (canvas & ctx & Hc & Hx).
  set (s1 := setColor (DrawingHistory.color h0)
       (setStrokeWidth (DrawingHistory.strokeWidth h0)
       (setLoading (loading s ++ [DrawingHistory.dataURL h0])
       (setHistoryIndex (historyIndex s - 1) s)))).
  assert (Hready1 : surfaceReady s1) by (exists canvas, ctx; now split).
  assert (Hh1 : elementAt (history s1) (historyIndex s1 + 1) = Some h).
  { cbn. now replace (historyIndex s - 1 + 1) with (historyIndex s) by lia. }
  assert (Hlt1 : historyIndex s1 < Z.of_nat (List.length (history s1)) - 1)
    by (cbn; lia).
  set (s2 := setColor (DrawingHistory.color h)
       (setStrokeWidth (DrawingHistory.strokeWidth h)
       (setLoading (loading s1 ++ [DrawingHistory.dataURL h])
       (setHistoryIndex (historyIndex s1 + 1) s1)))).
  assert (Hs' : s' = flush decodeImage s2).
  { subst s'. unfold undoThenRedo.
    rewrite (undo_effective s h0 Hready Hpos Hh0). cbn [stateOf]. fold s1.
    now rewrite (redo_effective s1 h Hready1 Hlt1 Hh1). }
  destruct (flush_last decodeImage s2 canvas
              (loading s1) (DrawingHistory.dataURL h) img)
    as (F1 & _ & F3 & F4 & F5 & F6); try reflexivity; try assumption.
  rewrite <- Hs' in F1, F3, F4, F5, F6. cbn in F3, F4, F5, F6.
  assert (Hi : historyIndex s' = historyIndex s) by lia.
  do 5 (split; [congruence |]).
  intros Hsurf Hw Hcol. unfold sameView. repeat split; congruence.
Qed.

Lemma C3_undo_redo_returns_to_snapshot_witness :
  let s := Sample.retouched in
  let s' := undoThenRedo Sample.decodeImage s in
  exists h img,
    surfaceReady s /\
    0 < historyIndex s /\
    current s = Some h /\
    Sample.decodeImage (DrawingHistory.dataURL h) = Some img /\
    history s' = history s /\
    historyIndex s' = historyIndex s /\
    surface s' = Some img /\
    strokeWidth s' = DrawingHistory.strokeWidth h /\
    color s' = DrawingHistory.color h.
Proof.
  intros s s'.
  assert (Hready : surfaceReady s).
  { unfold surfaceReady. do 2 eexists. split; vm_compute; reflexivity. }
  assert (Hpos : 0 < historyIndex s) by reflexivity.
  exists (DrawingHistory.mk "data:image/png,#FF0000;#0000FF" 10 Sample.blue).
  exists (Sample.sheet (Sample.strokeA ++ Sample.strokeB)).
  assert (Hcur : current s =
    Some (DrawingHistory.mk "data:image/png,#FF0000;#0000FF" 10 Sample.blue))
    by (vm_compute; reflexivity).
  assert (Hd : Sample.decodeImage "data:image/png,#FF0000;#0000FF" =
    Some (Sample.sheet (Sample.strokeA ++ Sample.strokeB)))
    by (vm_compute; reflexivity).
  destruct (C3_undo_redo_returns_to_snapshot Sample.decodeImage s _ _
              Hready Hpos Hcur Hd) as (H1 & H2 & H3 & H4 & H5 & _).
  exact (conj Hready (conj Hpos (conj Hcur (conj Hd
           (conj H1 (conj H2 (conj H3 (conj H4 H5)))))))).
Defined.

(** ** Loads that overtake each other *)

(** C5, as stated, fails: three strokes are committed, [undo] is
    clicked twice, and the image requested by the second click finishes
    loading before the image requested by the first.  The cursor is then
    on the first snapshot while the surface shows the second. *)
Lemma C5_stale_load_overwrites_newer :
  loading Sample.raced = [] /\
  historyIndex Sample.raced = 0 /\
  surface Sample.raced =
    Sample.decodeImage "data:image/png,#FF0000;#0000FF" /\
  ~ rendersRequested Sample.decodeImage Sample.raced.
Proof.
  split; [reflexivity |]. split; [reflexivity |].
  split; [vm_compute; reflexivity |].
  intros H. destruct (H eq_refl) as (h & img & Hc & Hd & Hs).
  vm_compute in Hc. injection Hc as <-.
  vm_compute in Hd. injection Hd as <-.
  vm_compute in Hs. discriminate.
Qed.

(** C5, amended.  The handler neither orders nor cancels image loads.
    When the loads in flight complete in the order of issue, then after
    an [undo] or [redo] that moved the cursor onto a snapshot that
    decodes, and once every load has completed, the surface shows that
    snapshot and nothing is in flight. *)
Theorem C5_loads_in_order_render_latest
        (decodeImage : string -> option Bitmap) (s : State) (o : Outcome)
        (h : DrawingHistory.t) (img : Bitmap) :
  surfaceReady s ->
  o = undo s \/ o = redo s ->
  historyIndex (stateOf o) <> historyIndex s ->
  current (stateOf o) = Some h ->
  decodeImage (DrawingHistory.dataURL h) = Some img ->
  let s' := flush decodeImage (stateOf o) in
  surface s' = Some img /\
  loading s' = [] /\
  historyIndex s' = historyIndex (stateOf o) /\
  rendersRequested decodeImage s'.
Proof.
  intros Hready Ho Hmoved Hcur Hd s'.
  pose proof Hready as (canvas & ctx & Hc & Hx).
  assert (Hload : exists older,
             canvasRef (stateOf o) = Some canvas /\
             history (stateOf o) = history s /\
             loading (stateOf o) = older ++ [DrawingHistory.dataURL h]).
  { destruct Ho as [-> | ->].
    - unfold undo in *.
      destruct (Z.ltb_spec 0 (historyIndex s)) as [Hpos |];
        [| now contradiction Hmoved].
      unfold loadHistoryState in *. cbn in *. rewrite Hc, Hx in *.
      destruct (elementAt (history s) (historyIndex s - 1)) as [h0 |] eqn:E.
      + cbn in *. unfold current in Hcur. cbn in Hcur.
        assert (h0 = h) as -> by congruence.
        exists (loading s). now rewrite Hc.
      + cbn in *. unfold current in Hcur. cbn in Hcur. congruence.
    - unfold redo in *.
      destruct (Z.ltb_spec (historyIndex s)
                  (Z.of_nat (List.length (history s)) - 1)) as [Hlt |];
        [| now contradiction Hmoved].
      unfold loadHistoryState in *. cbn in *. rewrite Hc, Hx in *.
      destruct (elementAt (history s) (historyIndex s + 1)) as [h0 |] eqn:E.
      + cbn in *. unfold current in Hcur. cbn in Hcur.
        assert (h0 = h) as -> by congruence.
        exists (loading s). now rewrite Hc.
      + cbn in *. unfold current in Hcur. cbn in Hcur. congruence. }
  destruct Hload as (older & Hc' & Hh' & Hl').
  destruct (flush_last decodeImage (stateOf o) canvas older
              (DrawingHistory.dataURL h) img Hc' Hl' Hd)
    as (F1 & F2 & F3 & F4 & _).
  fold s' in F1, F2, F3, F4.
  repeat split; try assumption.
  intros _. exists h, img. unfold current in *.
  rewrite F3, F4. now repeat split.
Qed.

Lemma C5_loads_in_order_render_latest_witness :
  let s := Sample.session
             (Sample.strokeA ++ Sample.strokeB ++ Sample.strokeC ++
              [ClickUndo]) in
  let s' := flush Sample.decodeImage (stateOf (undo s)) in
  surfaceReady s /\
  historyIndex (stateOf (undo s)) <> historyIndex s /\
  surface s' = Some (Sample.sheet Sample.strokeA) /\
  loading s' = [] /\
  historyIndex s' = 0 /\
  rendersRequested Sample.decodeImage s'.
Proof.
  intros s s'.
  assert (Hready : surfaceReady s).
  { unfold surfaceReady. do 2 eexists. split; vm_compute; reflexivity. }
  assert (Hmoved : historyIndex (stateOf (undo s)) <> historyIndex s)
    by (vm_compute; discriminate).
  split; [exact Hready |]. split; [exact Hmoved |].
  apply (C5_loads_in_order_render_latest Sample.decodeImage s (undo s)
           (DrawingHistory.mk "data:image/png,#FF0000" 4 Sample.red)
           (Sample.sheet Sample.strokeA) Hready (or_introl eq_refl) Hmoved).
  - vm_compute; reflexivity.
  - vm_compute; reflexivity.
Defined.

(** ** Drawing a segment *)

Lemma segmentsOf_snoc_incl (sub : list Point) (p : Point)
      (seg : Point * Point) :
  In seg (segmentsOf sub) -> In seg (segmentsOf (sub ++ [p])).
Proof.
  induction sub as [| a sub IH]; [intros [] |].
  destruct sub as [| b rest]; [intros [] |].
  cbn [segmentsOf app] in *. intros [Heq | Hin]; [now left | right; auto].
Qed.

Lemma segmentsOf_snoc_new (sub : list Point) (p q : Point) :
  lastOf sub = Some q -> In (q, p) (segmentsOf (sub ++ [p])).
Proof.
  induction sub as [| a sub IH]; [discriminate |].
  destruct sub as [| b rest].
  - cbn. intros [= ->]. now left.
  - intros Hl. cbn [segmentsOf app] in *. right. apply IH. exact Hl.
Qed.

Lemma pathSegments_cons (sub : list Point) (pa : Path) :
  pathSegments (sub :: pa) = segmentsOf sub ++ pathSegments pa.
Proof. reflexivity. Qed.

Lemma extendLast_cons (p : Point) (sub sub' : list Point) (rest : Path) :
  extendLast p (sub :: sub' :: rest) = sub :: extendLast p (sub' :: rest).
Proof. reflexivity. Qed.

Lemma extendLast_keeps_segments (pa : Path) (p : Point)
      (seg : Point * Point) :
  In seg (pathSegments pa) -> In seg (pathSegments (extendLast p pa)).
Proof.
  induction pa as [| sub pa IH]; [intros [] |].
  destruct pa as [| sub' rest].
  - cbn. rewrite !app_nil_r. apply segmentsOf_snoc_incl.
  - rewrite extendLast_cons, !(pathSegments_cons sub), !in_app_iff.
    intros [H | H]; [now left | right; apply IH; exact H].
Qed.

Lemma extendLast_adds_segment (pa : Path) (p q : Point) :
  lastPoint pa = Some q -> In (q, p) (pathSegments (extendLast p pa)).
Proof.
  induction pa as [| sub pa IH]; [discriminate |].
  destruct pa as [| sub' rest].
  - cbn. rewrite app_nil_r. apply segmentsOf_snoc_new.
  - intros Hl. rewrite extendLast_cons, pathSegments_cons, in_app_iff.
    right. apply IH. exact Hl.
Qed.

(** C8, as stated, fails: a stroke is begun with a red pen of width 4,
    one segment is drawn, the pen is changed to blue and width 10, and a
    second segment is drawn.  The first segment, red before that second
    call, is shown in blue after it. *)
Lemma C8_earlier_segment_is_repainted :
  ~ paintsOnlyAhead (Sample.at_ 38 46) Sample.repenned.
Proof.
  intros H.
  specialize (H Sample.firstSegment _ _ eq_refl eq_refl eq_refl).
  vm_compute in H. discriminate.
Qed.

(** C8, amended.  While a stroke is in progress on a mounted canvas,
    [draw] lays down one paint whose width and colour are [strokeWidth]
    and [color] as they are at that call, and whose path is the whole
    path of the stroke extended to the pointer: it contains the new
    segment from the last point to the pointer and every earlier
    segment of the stroke. *)
Theorem C8_draw_strokes_whole_path_with_current_pen
        (e : MouseEvent) (s : State)
        (canvas : HTMLCanvasElement) (ctx : Context2D) :
  isDrawing s = true ->
  canvasRef s = Some canvas ->
  getContext canvas = Some ctx ->
  let pos := getMousePos canvas e in
  let stroked := extendLast pos (path ctx) in
  surface (draw e s) =
    Some (bitmap canvas ++
          [mkPaint stroked (strokeWidth s) (color s)
                   (lineCap ctx) (lineJoin ctx)]) /\
  strokePath (draw e s) = stroked /\
  (forall q, lastPoint (path ctx) = Some q ->
             In (q, pos) (pathSegments stroked)) /\
  (forall seg, In seg (pathSegments (path ctx)) ->
               In seg (pathSegments stroked)).
Proof.
  intros Hd Hc Hx pos stroked.
  split; [| split; [| split]].
  - unfold draw. now rewrite Hd, Hc, Hx.
  - unfold draw, strokePath. now rewrite Hd, Hc, Hx.
  - intros q. apply extendLast_adds_segment.
  - intros seg. apply extendLast_keeps_segments.
Qed.

Lemma C8_draw_strokes_whole_path_with_current_pen_witness :
  let s := Sample.repenned in
  let e := Sample.at_ 38 46 in
  exists canvas ctx,
    isDrawing s = true /\
    canvasRef s = Some canvas /\
    getContext canvas = Some ctx /\
    surface (draw e s) =
      Some (bitmap canvas ++
            [mkPaint (extendLast (getMousePos canvas e) (path ctx))
                     10 Sample.blue "round" "round"]).
Proof.
  intros s e. do 2 eexists.
  split; [reflexivity |].
  split; [vm_compute; reflexivity |].
  split; [vm_compute; reflexivity |].
  refine (proj1 (C8_draw_strokes_whole_path_with_current_pen e s _ _
                   eq_refl _ _)); vm_compute; reflexivity.
Defined.

(** ** Pointer coordinates *)

(** C9, as stated, fails: on the canvas displayed 300 wide, a pointer 7
    pixels from its left edge is mapped to 18.666666666666664, the
    offset times the rounded ratio 800/300, while the offset times 800,
    divided by 300, is 18.666666666666668. *)
Lemma C9_scale_factor_is_rounded_first :
  let canvas := mountedCanvas Sample.narrow in
  let evt := Sample.at_ 7 0 in
  (x (getMousePos canvas evt) <?
   surfaceX (clientX evt) (left Sample.narrow) (numberOf (width canvas))
            (rectWidth Sample.narrow))%float = true /\
  x (getMousePos canvas evt) <>
  surfaceX (clientX evt) (left Sample.narrow) (numberOf (width canvas))
           (rectWidth Sample.narrow).
Proof.
  intros canvas evt.
  assert (Hlt : (x (getMousePos canvas evt) <?
                 surfaceX (clientX evt) (left Sample.narrow)
                          (numberOf (width canvas))
                          (rectWidth Sample.narrow))%float = true)
    by (vm_compute; reflexivity).
  split; [exact Hlt |].
  intros Heq. rewrite Heq in Hlt. vm_compute in Hlt. discriminate Hlt.
Qed.

(** C9, amended.  [getMousePos] returns the pointer position relative
    to the displayed rectangle multiplied by the scale factor, the
    logical size divided by the displayed size, which is computed
    first; each operation is one on doubles.  The result depends on the
    canvas through its dimensions and its displayed rectangle only, and
    no state is read or written. *)
Theorem C9_getMousePos_scales_by_factor
        (canvas canvas' : HTMLCanvasElement) (evt : MouseEvent) :
  let rect := boundingClientRect canvas in
  x (getMousePos canvas evt) =
    scaledBy (clientX evt) (left rect) (numberOf (width canvas))
             (rectWidth rect) /\
  y (getMousePos canvas evt) =
    scaledBy (clientY evt) (top rect) (numberOf (height canvas))
             (rectHeight rect) /\
  (width canvas' = width canvas ->
   height canvas' = height canvas ->
   boundingClientRect canvas' = boundingClientRect canvas ->
   getMousePos canvas' evt = getMousePos canvas evt).
Proof.
  intros rect. split; [reflexivity |]. split; [reflexivity |].
  intros Hw Hh Hr. unfold getMousePos. now rewrite Hw, Hh, Hr.
Qed.

Lemma C9_getMousePos_scales_by_factor_witness :
  let canvas := mountedCanvas Sample.rect in
  let canvas' := stroke (mkCtx "round" "round" 4 Sample.red []) canvas in
  let evt := Sample.at_ 18 26 in
  getMousePos canvas evt = mkPoint 20 20 /\
  getMousePos canvas' evt = getMousePos canvas evt.
Proof.
  intros canvas canvas' evt.
  split; [vm_compute; reflexivity |].
  exact (proj2 (proj2 (C9_getMousePos_scales_by_factor canvas canvas' evt))
               eq_refl eq_refl eq_refl).
Defined.


(** * Further properties of the component *)

(** ** Strokes *)

(** X3. On a mounted canvas, [startDrawing] paints nothing and commits
    nothing: pixels, history, cursor and pen stay as they were.  It
    raises the drawing flag and replaces whatever path the context held
    by a path that holds the pointer position alone. *)
Theorem startDrawing_begins_fresh_path
        (e : MouseEvent) (s : State) (canvas : HTMLCanvasElement) :
  canvasRef s = Some canvas ->
  getContext canvas <> None ->
  let s' := startDrawing e s in
  isDrawing s' = true /\
  strokePath s' = [[getMousePos canvas e]] /\
  pathSegments (strokePath s') = [] /\
  surface s' = surface s /\
  history s' = history s /\
  historyIndex s' = historyIndex s /\
  strokeWidth s' = strokeWidth s /\
  color s' = color s.
Proof.
  intros Hc Hx s'. subst s'. unfold startDrawing, strokePath, surface.
  rewrite Hc. destruct (getContext canvas) as [ctx |]; [| congruence].
  cbn. repeat split.
Qed.

Lemma startDrawing_begins_fresh_path_witness :
  let s := Sample.retouched in
  let s' := startDrawing (Sample.at_ 18 26) s in
  isDrawing s' = true /\
  pathSegments (strokePath s') = [] /\
  surface s' = surface s /\
  history s' = history s.
Proof.
  intros s s'.
  destruct (canvasRef s) as [canvas |] eqn:Hc; [| discriminate Hc].
  assert (Hx : getContext canvas <> None).
  { vm_compute in Hc. injection Hc as <-. discriminate. }
  destruct (startDrawing_begins_fresh_path (Sample.at_ 18 26) s canvas Hc Hx)
    as (H1 & _ & H3 & H4 & H5 & _).
  exact (conj H1 (conj H3 (conj H4 H5))).
Defined.

Lemma getMousePos_same_geometry
      (c c' : HTMLCanvasElement) (e : MouseEvent) :
  width c' = width c ->
  height c' = height c ->
  boundingClientRect c' = boundingClientRect c ->
  getMousePos c' e = getMousePos c e.
Proof. intros Hw Hh Hr. unfold getMousePos. now rewrite Hw, Hh, Hr. Qed.

Lemma drawAll_paints (es : list MouseEvent) :
  forall (s : State) (canvas : HTMLCanvasElement) (ctx : Context2D)
         (sub : list Point),
    isDrawing s = true ->
    canvasRef s = Some canvas ->
    getContext canvas = Some ctx ->
    path ctx = [sub] ->
    surface (drawAll es s) =
    Some (bitmap canvas ++
          map (fun k =>
                 mkPaint [sub ++ firstn k (map (getMousePos canvas) es)]
                         (strokeWidth s) (color s)
                         (lineCap ctx) (lineJoin ctx))
              (seq 1 (List.length es))).
Proof.
  induction es as [| e es IH]; intros s canvas ctx sub Hd Hc Hx Hp.
  - cbn. unfold surface. rewrite Hc. cbn. now rewrite app_nil_r.
  - unfold drawAll. cbn [fold_left]. fold (drawAll es (draw e s)).
    set (pos := getMousePos canvas e).
    set (ctx' := lineTo pos (setStrokeStyle (color s)
                   (setLineWidth (strokeWidth s) ctx))).
    assert (Hdraw : draw e s = setCanvas (stroke ctx' canvas) s).
    { unfold draw. now rewrite Hd, Hc, Hx. }
    rewrite Hdraw.
    rewrite (IH (setCanvas (stroke ctx' canvas) s) (stroke ctx' canvas)
                ctx' (sub ++ [pos]));
      [| exact Hd | reflexivity | reflexivity
       | subst ctx'; cbn; now rewrite Hp].
    f_equal. cbn [stroke withBitmap withContext bitmap].
    rewrite <- app_assoc. f_equal.
    cbn [List.length seq map firstn app].
    f_equal.
    + subst ctx' pos. unfold ink. cbn. rewrite Hp. reflexivity.
    + rewrite <- (seq_shift (List.length es) 1), map_map.
      apply map_ext. intros k. cbn [firstn map].
      rewrite <- app_assoc. cbn [app].
      subst ctx' pos. cbn. repeat f_equal.
Qed.

(** X4. After [startDrawing] on a mounted canvas, pointer moves
    [e1 .. en] made with one pen add [n] paints to the surface, and the
    [k]-th of them runs along the whole stroke so far, from the starting
    point through the first [k] positions: every move strokes again the
    segments of the moves before it. *)
Theorem stroke_repaints_its_prefixes
        (e0 : MouseEvent) (es : list MouseEvent) (s : State)
        (canvas : HTMLCanvasElement) (ctx : Context2D) :
  canvasRef s = Some canvas ->
  getContext canvas = Some ctx ->
  let points := map (getMousePos canvas) es in
  surface (drawAll es (startDrawing e0 s)) =
  Some (bitmap canvas ++
        map (fun k =>
               mkPaint [getMousePos canvas e0 :: firstn k points]
                       (strokeWidth s) (color s)
                       (lineCap ctx) (lineJoin ctx))
            (seq 1 (List.length es))).
Proof.
  intros Hc Hx points. subst points.
  set (ctx0 := moveTo (getMousePos canvas e0) (beginPath ctx)).
  assert (Hs : startDrawing e0 s =
               setIsDrawing true (setCanvas (withContext ctx0 canvas) s)).
  { unfold startDrawing. now rewrite Hc, Hx. }
  rewrite Hs.
  rewrite (drawAll_paints es _ (withContext ctx0 canvas) ctx0
             [getMousePos canvas e0]); reflexivity.
Qed.

Lemma stroke_repaints_its_prefixes_witness :
  let s := initialState Sample.rect in
  let es := [Sample.at_ 28 36; Sample.at_ 38 46] in
  option_map (map (fun p => List.length (pathSegments (inkPath p))))
    (surface (drawAll es (startDrawing (Sample.at_ 18 26) s))) =
  Some [1%nat; 2%nat].
Proof.
  intros s es.
  rewrite (stroke_repaints_its_prefixes (Sample.at_ 18 26) es s
             (mountedCanvas Sample.rect)
             (setLineJoin "round" (setLineCap "round"
                (mkCtx "butt" "miter" 1 "#000000" [])))
             eq_refl eq_refl).
  reflexivity.
Defined.

(** ** The canvas stays as it was mounted *)

Lemma canvasAsMounted_ready (r : DOMRect) (s : State) :
  canvasAsMounted r s -> surfaceReady s.
Proof. intros (canvas & ctx & Hc & Hx & _). now exists canvas, ctx. Qed.

Lemma canvasAsMounted_initial (r : DOMRect) :
  canvasAsMounted r (initialState r).
Proof. unfold canvasAsMounted. cbn. do 2 eexists. repeat split. Qed.

Lemma canvasAsMounted_same_canvas (r : DOMRect) (s s' : State) :
  canvasRef s' = canvasRef s -> canvasAsMounted r s -> canvasAsMounted r s'.
Proof. unfold canvasAsMounted. intros ->. exact (fun H => H). Qed.

Lemma canvasAsMounted_settle (decodeImage : string -> option Bitmap)
      (r : DOMRect) (src : string) (s : State) :
  canvasAsMounted r s -> canvasAsMounted r (settle decodeImage src s).
Proof.
  intros Hm. unfold settle, onload.
  destruct (decodeImage src) as [img |]; [| exact Hm].
  destruct Hm as (canvas & ctx & Hc & Hx & Hw & Hh & Hr & Hcap & Hjoin).
  rewrite Hc. exists (drawImage img (clearRect canvas)), ctx.
  cbn. repeat split; assumption.
Qed.

Lemma canvasAsMounted_dispatch (toDataURL : Bitmap -> string)
      (decodeImage : string -> option Bitmap) (r : DOMRect)
      (ev : Event) (s : State) :
  canvasAsMounted r s ->
  canvasAsMounted r (dispatch toDataURL decodeImage ev s).
Proof.
  intros Hm.
  destruct ev as [e | e | | | c | w | | | | k]; cbn [dispatch].
  - destruct Hm as (canvas & ctx & Hc & Hx & Hw & Hh & Hr & Hcap & Hjoin).
    unfold startDrawing. rewrite Hc, Hx.
    do 2 eexists. cbn. repeat split; assumption.
  - unfold draw. destruct (negb (isDrawing s)); [exact Hm |].
    destruct Hm as (canvas & ctx & Hc & Hx & Hw & Hh & Hr & Hcap & Hjoin).
    rewrite Hc, Hx. do 2 eexists. cbn. repeat split; assumption.
  - apply (canvasAsMounted_same_canvas r s); [| exact Hm].
    unfold endDrawing. destruct (canvasRef s) eqn:E; [cbn | ]; exact E.
  - apply (canvasAsMounted_same_canvas r s); [| exact Hm].
    unfold endDrawing. destruct (canvasRef s) eqn:E; [cbn | ]; exact E.
  - exact Hm.
  - exact Hm.
  - apply (canvasAsMounted_same_canvas r s); [apply undo_frame | exact Hm].
  - apply (canvasAsMounted_same_canvas r s); [apply redo_frame | exact Hm].
  - destruct Hm as (canvas & ctx & Hc & Hx & Hw & Hh & Hr & Hcap & Hjoin).
    unfold clearCanvas. rewrite Hc, Hx.
    exists (clearRect canvas), ctx. cbn. repeat split; assumption.
  - unfold imageLoaded.
    destruct (nth_error (loading s) k) as [src |]; [| exact Hm].
    apply canvasAsMounted_settle.
    apply (canvasAsMounted_same_canvas r s); [reflexivity | exact Hm].
Qed.

(** X5. In every state the component reaches, the canvas is mounted
    with its 2D context, is 800 by 600, and its context still has the
    round caps and joins set when it was mounted: no handler changes
    them. *)
Theorem reachable_canvas_as_mounted
        (toDataURL : Bitmap -> string)
        (decodeImage : string -> option Bitmap)
        (r : DOMRect) (s : State) :
  reachable toDataURL decodeImage r s -> canvasAsMounted r s.
Proof.
  induction 1 as [| s ev _ IH].
  - apply canvasAsMounted_initial.
  - now apply canvasAsMounted_dispatch.
Qed.

Lemma run_reachable (toDataURL : Bitmap -> string)
      (decodeImage : string -> option Bitmap) (r : DOMRect)
      (evs : list Event) (s : State) :
  reachable toDataURL decodeImage r s ->
  reachable toDataURL decodeImage r (run toDataURL decodeImage evs s).
Proof.
  revert s. induction evs as [| ev evs IH]; intros s Hs; cbn.
  - exact Hs.
  - apply IH. now apply reach_step.
Qed.

Lemma reachable_canvas_as_mounted_witness :
  canvasAsMounted Sample.rect Sample.raced.
Proof.
  apply (reachable_canvas_as_mounted Sample.toDataURL Sample.decodeImage).
  apply run_reachable. apply reach_init.
Defined.

(** ** The cursor and the history *)

Lemma cursorOnSnapshot_dispatch (toDataURL : Bitmap -> string)
      (decodeImage : string -> option Bitmap) (ev : Event) (s : State) :
  cursorOnSnapshot s ->
  cursorOnSnapshot (dispatch toDataURL decodeImage ev s).
Proof.
  unfold cursorOnSnapshot. intros Hs.
  destruct ev as [e | e | | | c | w | | | | k]; cbn [dispatch].
  - now destruct (startDrawing_frame e s) as [-> ->].
  - now destruct (draw_frame e s) as [-> ->].
  - unfold endDrawing. destruct (canvasRef s); [| exact Hs].
    cbn. right. rewrite length_app. cbn.
    destruct Hs as [[-> ->] | Hs]; [cbn; lia |].
    rewrite slice_prefix, length_firstn by lia. lia.
  - unfold endDrawing. destruct (canvasRef s); [| exact Hs].
    cbn. right. rewrite length_app. cbn.
    destruct Hs as [[-> ->] | Hs]; [cbn; lia |].
    rewrite slice_prefix, length_firstn by lia. lia.
  - exact Hs.
  - exact Hs.
  - unfold undo. destruct (Z.ltb_spec 0 (historyIndex s)); [| exact Hs].
    destruct (loadHistoryState_frame s (historyIndex s - 1)
                (setHistoryIndex (historyIndex s - 1) s)) as (H1 & H2 & _).
    cbn in H1, H2. rewrite H1, H2. right. lia.
  - unfold redo.
    destruct (Z.ltb_spec (historyIndex s)
                (Z.of_nat (List.length (history s)) - 1)); [| exact Hs].
    destruct (loadHistoryState_frame s (historyIndex s + 1)
                (setHistoryIndex (historyIndex s + 1) s)) as (H1 & H2 & _).
    cbn in H1, H2. rewrite H1, H2. right.
    destruct Hs as [[Hnil Hm] | Hs]; [rewrite Hnil in *; cbn in *; lia | lia].
  - unfold clearCanvas. destruct (canvasRef s) as [canvas |]; [| exact Hs].
    destruct (getContext canvas); [| exact Hs]. cbn. now left.
  - now destruct (imageLoaded_frame decodeImage k s) as (-> & -> & _).
Qed.

(** X6. In every state the component reaches, the cursor is -1 exactly
    when the history is empty and otherwise is the index of one of its
    snapshots: a non-empty history never has the cursor at -1. *)
Theorem reachable_cursor_on_snapshot
        (toDataURL : Bitmap -> string)
        (decodeImage : string -> option Bitmap)
        (r : DOMRect) (s : State) :
  reachable toDataURL decodeImage r s ->
  cursorOnSnapshot s /\
  (historyIndex s = -1 <-> history s = []).
Proof.
  intros Hr.
  assert (Hc : cursorOnSnapshot s).
  { induction Hr as [| s ev _ IH].
    - now left.
    - now apply cursorOnSnapshot_dispatch. }
  split; [exact Hc |].
  destruct Hc as [[Hnil Hm] | Hin]; split; intros H; try assumption; try lia.
  rewrite H in Hin. cbn in Hin. lia.
Qed.

Lemma reachable_cursor_on_snapshot_witness :
  cursorOnSnapshot Sample.raced /\
  (historyIndex Sample.raced = -1 <-> history Sample.raced = []).
Proof.
  apply (reachable_cursor_on_snapshot Sample.toDataURL Sample.decodeImage
           Sample.rect).
  apply run_reachable. apply reach_init.
Defined.

(** X7. With the cursor within [-1 .. length(history) - 1], [undo] and
    [redo] return normally: [loadHistoryState] is only ever called with
    the index of a snapshot, so it never reads a field of
    [undefined]. *)
Theorem undo_redo_return_normally (s : State) :
  historyInv s ->
  undo s = Done (stateOf (undo s)) /\ redo s = Done (stateOf (redo s)).
Proof.
  unfold historyInv. intros Hs. split.
  - unfold undo. destruct (Z.ltb_spec 0 (historyIndex s)); [| reflexivity].
    unfold loadHistoryState.
    destruct (canvasRef _) as [canvas |]; [| reflexivity].
    destruct (getContext canvas); [| reflexivity].
    destruct (elementAt_in_range (history s) (historyIndex s - 1)) as [h ->];
      [lia | reflexivity].
  - unfold redo.
    destruct (Z.ltb_spec (historyIndex s)
                (Z.of_nat (List.length (history s)) - 1)); [| reflexivity].
    unfold loadHistoryState.
    destruct (canvasRef _) as [canvas |]; [| reflexivity].
    destruct (getContext canvas); [| reflexivity].
    destruct (elementAt_in_range (history s) (historyIndex s + 1)) as [h ->];
      [lia | reflexivity].
Qed.

Lemma undo_redo_return_normally_witness :
  historyInv Sample.retouched /\
  undo Sample.retouched = Done (stateOf (undo Sample.retouched)) /\
  redo Sample.retouched = Done (stateOf (redo Sample.retouched)).
Proof.
  assert (Hs : historyInv Sample.retouched)
    by (vm_compute; split; discriminate).
  split; [exact Hs |].
  exact (undo_redo_return_normally Sample.retouched Hs).
Defined.

(** ** Strokes and the length of the history *)

Lemma mounted_dispatch (toDataURL : Bitmap -> string)
      (decodeImage : string -> option Bitmap) (ev : Event) (s : State) :
  canvasRef s <> None ->
  canvasRef (dispatch toDataURL decodeImage ev s) <> None.
Proof.
  intros Hm.
  destruct (canvasRef s) as [canvas |] eqn:E; [clear Hm | congruence].
  destruct ev as [e | e | | | c | w | | | | k]; cbn [dispatch].
  - unfold startDrawing. rewrite E.
    destruct (getContext canvas); cbn; rewrite ?E; discriminate.
  - unfold draw. destruct (negb (isDrawing s)); rewrite ?E; [discriminate |].
    destruct (getContext canvas); cbn; rewrite ?E; discriminate.
  - unfold endDrawing. rewrite E. cbn. rewrite E. discriminate.
  - unfold endDrawing. rewrite E. cbn. rewrite E. discriminate.
  - cbn. rewrite E. discriminate.
  - cbn. rewrite E. discriminate.
  - destruct (undo_frame s) as (_ & _ & ->). rewrite E. discriminate.
  - destruct (redo_frame s) as (_ & _ & ->). rewrite E. discriminate.
  - unfold clearCanvas. rewrite E.
    destruct (getContext canvas); cbn; rewrite ?E; discriminate.
  - unfold imageLoaded.
    destruct (nth_error (loading s) k) as [src |]; [| rewrite E; discriminate].
    unfold settle, onload. cbn. rewrite E.
    destruct (decodeImage src); cbn; rewrite ?E; discriminate.
Qed.

Lemma commit_at_end (toDataURL : Bitmap -> string) (s : State) :
  canvasRef s <> None ->
  historyIndex s = Z.of_nat (List.length (history s)) - 1 ->
  let s' := endDrawing toDataURL s in
  List.length (history s') = S (List.length (history s)) /\
  historyIndex s' = Z.of_nat (List.length (history s')) - 1.
Proof.
  intros Hm Hi. unfold endDrawing.
  destruct (canvasRef s); [| congruence]. cbn.
  rewrite slice_prefix by lia.
  rewrite length_app, length_firstn. cbn. lia.
Qed.

Lemma count_step (toDataURL : Bitmap -> string)
      (decodeImage : string -> option Bitmap) (ev : Event) (s : State) :
  canvasRef s <> None ->
  historyIndex s = Z.of_nat (List.length (history s)) - 1 ->
  historyControl ev = false ->
  let s' := dispatch toDataURL decodeImage ev s in
  List.length (history s') =
    (List.length (history s) + (if endsStroke ev then 1 else 0))%nat /\
  historyIndex s' = Z.of_nat (List.length (history s')) - 1.
Proof.
  intros Hm Hi Hev.
  destruct ev as [e | e | | | c | w | | | | k]; try discriminate Hev;
    cbn [dispatch endsStroke].
  - destruct (startDrawing_frame e s) as [-> ->]. lia.
  - destruct (draw_frame e s) as [-> ->]. lia.
  - destruct (commit_at_end toDataURL s Hm Hi) as [-> ->]. lia.
  - destruct (commit_at_end toDataURL s Hm Hi) as [-> ->]. lia.
  - cbn. lia.
  - cbn. lia.
  - destruct (imageLoaded_frame decodeImage k s) as (-> & -> & _). lia.
Qed.

(** X8. Starting with a mounted canvas and the cursor on the last
    snapshot, a run of events without undo, redo or clear adds one
    snapshot for every mouse-up and for every mouse-out, whether or not
    a stroke was in progress, and leaves the cursor on the last
    snapshot. *)
Theorem stroke_ends_are_counted
        (toDataURL : Bitmap -> string)
        (decodeImage : string -> option Bitmap)
        (evs : list Event) (s : State) :
  canvasRef s <> None ->
  historyIndex s = Z.of_nat (List.length (history s)) - 1 ->
  forallb (fun ev => negb (historyControl ev)) evs = true ->
  let s' := run toDataURL decodeImage evs s in
  List.length (history s') =
    (List.length (history s) + List.length (filter endsStroke evs))%nat /\
  historyIndex s' = Z.of_nat (List.length (history s')) - 1.
Proof.
  revert s. induction evs as [| ev evs IH]; intros s Hm Hi Hevs.
  - cbn. split; [lia | exact Hi].
  - cbn [forallb] in Hevs. apply andb_prop in Hevs as [Hev Hevs].
    apply negb_true_iff in Hev.
    destruct (count_step toDataURL decodeImage ev s Hm Hi Hev) as [Hl Hi'].
    pose proof (mounted_dispatch toDataURL decodeImage ev s Hm) as Hm'.
    destruct (IH _ Hm' Hi' Hevs) as [IHl IHi].
    change (run toDataURL decodeImage (ev :: evs) s)
      with (run toDataURL decodeImage evs (dispatch toDataURL decodeImage ev s)).
    cbn zeta. split; [| exact IHi].
    rewrite IHl, Hl. cbn [filter].
    destruct (endsStroke ev); cbn [List.length]; lia.
Qed.

Lemma stroke_ends_are_counted_witness :
  let evs := Sample.strokeA ++ [MouseOut] ++ Sample.strokeB ++ [MouseOut] in
  let s' := Sample.session evs in
  List.length (history s') = 4%nat /\ historyIndex s' = 3.
Proof.
  intros evs s'.
  assert (Hm : canvasRef (initialState Sample.rect) <> None) by discriminate.
  destruct (stroke_ends_are_counted Sample.toDataURL Sample.decodeImage evs
              (initialState Sample.rect) Hm eq_refl eq_refl) as [Hl Hi].
  subst s'. unfold Sample.session. split.
  - rewrite Hl. reflexivity.
  - rewrite Hi, Hl. reflexivity.
Defined.

(** ** One step back, one step forward *)

Lemma undo_index (s : State) :
  0 < historyIndex s ->
  historyIndex (stateOf (undo s)) = historyIndex s - 1.
Proof.
  intros Hpos. unfold undo.
  destruct (Z.ltb_spec 0 (historyIndex s)); [| lia].
  now destruct (loadHistoryState_frame s (historyIndex s - 1)
                  (setHistoryIndex (historyIndex s - 1) s)) as (_ & -> & _).
Qed.

(** X9. On a mounted canvas with the cursor above 0 and within the
    history, [undo] moves the cursor one snapshot back, sets the pen to
    the width and colour recorded in that snapshot at once, and starts
    loading its image; the pixels are not touched by the call itself. *)
Theorem undo_restores_pen_and_requests_image (s : State) :
  surfaceReady s ->
  historyInv s ->
  0 < historyIndex s ->
  exists h,
    elementAt (history s) (historyIndex s - 1) = Some h /\
    let s' := stateOf (undo s) in
    historyIndex s' = historyIndex s - 1 /\
    current s' = Some h /\
    strokeWidth s' = DrawingHistory.strokeWidth h /\
    color s' = DrawingHistory.color h /\
    loading s' = loading s ++ [DrawingHistory.dataURL h] /\
    surface s' = surface s.
Proof.
  unfold historyInv. intros Hready Hinv Hpos.
  destruct (elementAt_in_range (history s) (historyIndex s - 1)) as [h Hh];
    [lia |].
  exists h. split; [exact Hh |].
  rewrite (undo_effective s h Hready Hpos Hh). cbn.
  unfold current, surface. cbn. repeat split. exact Hh.
Qed.

Lemma undo_restores_pen_and_requests_image_witness :
  let s := Sample.retouched in
  let s' := stateOf (undo s) in
  historyIndex s' = 0 /\
  strokeWidth s' = 4 /\
  color s' = Sample.red /\
  loading s' = ["data:image/png,#FF0000"%string] /\
  surface s' = surface s.
Proof.
  intros s s'.
  assert (Hready : surfaceReady s).
  { unfold surfaceReady. do 2 eexists. split; vm_compute; reflexivity. }
  assert (Hinv : historyInv s) by (vm_compute; split; discriminate).
  assert (Hpos : 0 < historyIndex s) by reflexivity.
  destruct (undo_restores_pen_and_requests_image s Hready Hinv Hpos)
    as (h & Hh & H1 & _ & H3 & H4 & H5 & H6).
  vm_compute in Hh. injection Hh as <-.
  exact (conj H1 (conj H3 (conj H4 (conj H5 H6)))).
Defined.

(** X10. On a mounted canvas with the cursor within the history and
    before its last snapshot, [redo] moves the cursor one snapshot on,
    sets the pen to the width and colour recorded in that snapshot, and
    starts loading its image; the pixels are not touched by the call
    itself. *)
Theorem redo_restores_pen_and_requests_image (s : State) :
  surfaceReady s ->
  -1 <= historyIndex s ->
  historyIndex s < Z.of_nat (List.length (history s)) - 1 ->
  exists h,
    elementAt (history s) (historyIndex s + 1) = Some h /\
    let s' := stateOf (redo s) in
    historyIndex s' = historyIndex s + 1 /\
    current s' = Some h /\
    strokeWidth s' = DrawingHistory.strokeWidth h /\
    color s' = DrawingHistory.color h /\
    loading s' = loading s ++ [DrawingHistory.dataURL h] /\
    surface s' = surface s.
Proof.
  intros Hready Hlo Hhi.
  destruct (elementAt_in_range (history s) (historyIndex s + 1)) as [h Hh];
    [lia |].
  exists h. split; [exact Hh |].
  rewrite (redo_effective s h Hready Hhi Hh). cbn.
  unfold current, surface. cbn. repeat split. exact Hh.
Qed.

Lemma redo_restores_pen_and_requests_image_witness :
  let s := Sample.undone in
  let s' := stateOf (redo s) in
  historyIndex s' = 2 /\
  strokeWidth s' = 2 /\
  color s' = Sample.green /\
  surface s' = surface s.
Proof.
  intros s s'.
  assert (Hready : surfaceReady s).
  { unfold surfaceReady. do 2 eexists. split; vm_compute; reflexivity. }
  assert (Hlo : -1 <= historyIndex s) by (vm_compute; discriminate).
  assert (Hhi : historyIndex s < Z.of_nat (List.length (history s)) - 1)
    by reflexivity.
  destruct (redo_restores_pen_and_requests_image s Hready Hlo Hhi)
    as (h & Hh & H1 & _ & H3 & H4 & _ & H6).
  vm_compute in Hh. injection Hh as <-.
  exact (conj H1 (conj H3 (conj H4 H6))).
Defined.

Lemma undoThenRedo_view (decodeImage : string -> option Bitmap) (s : State)
      (h : DrawingHistory.t) (img : Bitmap) :
  surfaceReady s ->
  0 < historyIndex s ->
  current s = Some h ->
  decodeImage (DrawingHistory.dataURL h) = Some img ->
  let s' := undoThenRedo decodeImage s in
  history s' = history s /\
  historyIndex s' = historyIndex s /\
  surface s' = Some img /\
  strokeWidth s' = DrawingHistory.strokeWidth h /\
  color s' = DrawingHistory.color h.
Proof.
  intros Hready Hpos Hcur Hd s'.
  pose proof (elementAt_Some _ _ _ Hcur) as Hrange.
  destruct (elementAt_in_range (history s) (historyIndex s - 1)) as [h0 Hh0];
    [lia |].
  pose proof Hready as (canvas & ctx & Hc & Hx).
  pose proof (undo_effective s h0 Hready Hpos Hh0) as Hu.
  remember (stateOf (undo s)) as s1 eqn:Es1.
  rewrite Hu in Es1. cbn [stateOf] in Es1.
  assert (Hready1 : surfaceReady s1) by (subst s1; exists canvas, ctx; now split).
  assert (Hi1 : historyIndex s1 = historyIndex s - 1) by now subst s1.
  assert (Hh1 : history s1 = history s) by now subst s1.
  assert (Hc1 : canvasRef s1 = Some canvas) by now subst s1.
  assert (He1 : elementAt (history s1) (historyIndex s1 + 1) = Some h).
  { rewrite Hh1, Hi1.
    now replace (historyIndex s - 1 + 1) with (historyIndex s) by lia. }
  assert (Hlt1 : historyIndex s1 < Z.of_nat (List.length (history s1)) - 1)
    by (rewrite Hh1, Hi1; lia).
  pose proof (redo_effective s1 h Hready1 Hlt1 He1) as Hr.
  assert (Hs' : s' = flush decodeImage (stateOf (redo s1))).
  { subst s'. unfold undoThenRedo. now rewrite Hu, Es1. }
  rewrite Hr in Hs'. cbn [stateOf] in Hs'.
  match type of Hs' with _ = flush _ ?t => set (s2 := t) in * end.
  destruct (flush_last decodeImage s2 canvas (loading s1)
              (DrawingHistory.dataURL h) img Hc1 eq_refl Hd)
    as (F1 & _ & F3 & F4 & F5 & F6).
  rewrite <- Hs' in F1, F3, F4, F5, F6. cbn in F3, F4, F5, F6.
  repeat split; try assumption; try congruence. lia.
Qed.

Lemma redo_index (s : State) :
  historyIndex s < Z.of_nat (List.length (history s)) - 1 ->
  historyIndex (stateOf (redo s)) = historyIndex s + 1.
Proof.
  intros Hlt. unfold redo.
  destruct (Z.ltb_spec (historyIndex s)
              (Z.of_nat (List.length (history s)) - 1)); [| lia].
  now destruct (loadHistoryState_frame s (historyIndex s + 1)
                  (setHistoryIndex (historyIndex s + 1) s)) as (_ & -> & _).
Qed.

(** X11. On a mounted canvas with the cursor on a snapshot that decodes
    and that is not the last one, [redo] then [undo], with the image
    loads completing in the order of issue, bring the cursor back to
    that snapshot, show it on the surface and set the pen recorded in
    it; the history is unchanged. *)
Theorem redo_undo_returns_to_snapshot
        (decodeImage : string -> option Bitmap) (s : State)
        (h : DrawingHistory.t) (img : Bitmap) :
  surfaceReady s ->
  historyIndex s < Z.of_nat (List.length (history s)) - 1 ->
  current s = Some h ->
  decodeImage (DrawingHistory.dataURL h) = Some img ->
  let s' := redoThenUndo decodeImage s in
  history s' = history s /\
  historyIndex s' = historyIndex s /\
  surface s' = Some img /\
  strokeWidth s' = DrawingHistory.strokeWidth h /\
  color s' = DrawingHistory.color h.
Proof.
  intros Hready Hlt Hcur Hd s'.
  pose proof (elementAt_Some _ _ _ Hcur) as Hrange.
  destruct (elementAt_in_range (history s) (historyIndex s + 1)) as [h1 Hh1];
    [lia |].
  pose proof Hready as (canvas & ctx & Hc & Hx).
  pose proof (redo_effective s h1 Hready Hlt Hh1) as Hr.
  remember (stateOf (redo s)) as s1 eqn:Es1.
  rewrite Hr in Es1. cbn [stateOf] in Es1.
  assert (Hready1 : surfaceReady s1) by (subst s1; exists canvas, ctx; now split).
  assert (Hi1 : historyIndex s1 = historyIndex s + 1) by now subst s1.
  assert (Hy1 : history s1 = history s) by now subst s1.
  assert (Hc1 : canvasRef s1 = Some canvas) by now subst s1.
  assert (He1 : elementAt (history s1) (historyIndex s1 - 1) = Some h).
  { rewrite Hy1, Hi1.
    now replace (historyIndex s + 1 - 1) with (historyIndex s) by lia. }
  assert (Hpos1 : 0 < historyIndex s1) by lia.
  pose proof (undo_effective s1 h Hready1 Hpos1 He1) as Hu.
  assert (Hs' : s' = flush decodeImage (stateOf (undo s1))).
  { subst s'. unfold redoThenUndo. now rewrite Hr, Es1. }
  rewrite Hu in Hs'. cbn [stateOf] in Hs'.
  match type of Hs' with _ = flush _ ?t => set (s2 := t) in * end.
  destruct (flush_last decodeImage s2 canvas (loading s1)
              (DrawingHistory.dataURL h) img Hc1 eq_refl Hd)
    as (F1 & _ & F3 & F4 & F5 & F6).
  rewrite <- Hs' in F1, F3, F4, F5, F6. cbn in F3, F4, F5, F6.
  repeat split; try assumption; try congruence. lia.
Qed.

Lemma redo_undo_returns_to_snapshot_witness :
  let s := Sample.undone in
  let s' := redoThenUndo Sample.decodeImage s in
  history s' = history s /\
  historyIndex s' = historyIndex s /\
  surface s' = Some (Sample.sheet (Sample.strokeA ++ Sample.strokeB)) /\
  strokeWidth s' = 10 /\
  color s' = Sample.blue.
Proof.
  intros s s'.
  assert (Hready : surfaceReady s).
  { unfold surfaceReady. do 2 eexists. split; vm_compute; reflexivity. }
  assert (Hlt : historyIndex s < Z.of_nat (List.length (history s)) - 1)
    by reflexivity.
  assert (Hcur : current s =
    Some (DrawingHistory.mk "data:image/png,#FF0000;#0000FF" 10 Sample.blue))
    by (vm_compute; reflexivity).
  assert (Hd : Sample.decodeImage "data:image/png,#FF0000;#0000FF" =
    Some (Sample.sheet (Sample.strokeA ++ Sample.strokeB)))
    by (vm_compute; reflexivity).
  exact (redo_undo_returns_to_snapshot Sample.decodeImage s _ _
           Hready Hlt Hcur Hd).
Defined.

(** ** Committing *)

Lemma current_endDrawing (toDataURL : Bitmap -> string) (s : State)
      (canvas : HTMLCanvasElement) :
  canvasRef s = Some canvas ->
  historyInv s ->
  current (endDrawing toDataURL s) =
  Some (DrawingHistory.mk (toDataURL (bitmap canvas))
                          (strokeWidth s) (color s)).
Proof.
  unfold historyInv. intros Hc Hinv.
  unfold current, endDrawing. rewrite Hc. cbn.
  rewrite slice_prefix by lia.
  unfold elementAt. destruct (Z.ltb_spec (historyIndex s + 1) 0); [lia |].
  rewrite nth_error_app2 by (rewrite length_firstn; lia).
  rewrite length_firstn.
  replace (Z.to_nat (historyIndex s + 1) -
           Nat.min (Z.to_nat (historyIndex s + 1)) (List.length (history s)))%nat
    with 0%nat by lia.
  reflexivity.
Qed.

(** X12. On a mounted canvas with the cursor above 0 and within the
    history, ending a stroke right after an [undo] keeps the snapshots
    before the old cursor position only, so the undone snapshot and all
    later ones are dropped, and appends a snapshot taken from the pixels
    then on the canvas; the cursor is back at its old value, on the new
    last snapshot, and [redo] changes nothing. *)
Theorem commit_after_undo_drops_undone
        (toDataURL : Bitmap -> string) (s : State)
        (canvas : HTMLCanvasElement) :
  canvasRef s = Some canvas ->
  historyInv s ->
  0 < historyIndex s ->
  let s' := endDrawing toDataURL (stateOf (undo s)) in
  exists snap,
    history s' = firstn (Z.to_nat (historyIndex s)) (history s) ++ [snap] /\
    DrawingHistory.dataURL snap = toDataURL (bitmap canvas) /\
    List.length (history s') = Z.to_nat (historyIndex s + 1) /\
    historyIndex s' = historyIndex s /\
    redo s' = Done s'.
Proof.
  intros Hc Hinv Hpos s'. unfold historyInv in Hinv.
  destruct (undo_frame s) as (Hh & _ & Hcu).
  pose proof (undo_index s Hpos) as Hi.
  rewrite Hc in Hcu.
  assert (Hhist : history s' =
            firstn (Z.to_nat (historyIndex s)) (history s) ++
            [DrawingHistory.mk (toDataURL (bitmap canvas))
               (strokeWidth (stateOf (undo s))) (color (stateOf (undo s)))]).
  { subst s'. unfold endDrawing. rewrite Hcu. cbn.
    rewrite Hh, Hi, slice_prefix by lia.
    now replace (historyIndex s - 1 + 1) with (historyIndex s) by lia. }
  assert (Hidx : historyIndex s' = historyIndex s).
  { subst s'. unfold endDrawing. rewrite Hcu. cbn. lia. }
  assert (Hlen : List.length (history s') = Z.to_nat (historyIndex s + 1)).
  { rewrite Hhist, length_app, length_firstn. cbn. lia. }
  eexists. split; [exact Hhist |]. split; [reflexivity |].
  split; [exact Hlen |]. split; [exact Hidx |].
  unfold redo. rewrite Hidx, Hlen.
  destruct (Z.ltb_spec (historyIndex s)
              (Z.of_nat (Z.to_nat (historyIndex s + 1)) - 1)); [lia |].
  reflexivity.
Qed.

Lemma commit_after_undo_drops_undone_witness :
  let s := Sample.session (Sample.strokeA ++ Sample.strokeB ++ Sample.strokeC) in
  let s' := endDrawing Sample.toDataURL (stateOf (undo s)) in
  List.length (history s') = 3%nat /\
  historyIndex s' = 2 /\
  redo s' = Done s'.
Proof.
  intros s s'.
  assert (Hc : canvasRef s = Some (Sample.canvasOf s))
    by (vm_compute; reflexivity).
  assert (Hinv : historyInv s) by (vm_compute; split; discriminate).
  assert (Hpos : 0 < historyIndex s) by reflexivity.
  destruct (commit_after_undo_drops_undone Sample.toDataURL s _
              Hc Hinv Hpos) as (snap & _ & _ & Hl & Hi & Hr).
  split; [| split].
  - vm_compute in Hl. vm_compute. exact Hl.
  - vm_compute in Hi. vm_compute. exact Hi.
  - vm_compute in Hr. vm_compute. exact Hr.
Defined.

(** X13. On a mounted canvas with the cursor on a snapshot, and with a
    codec that decodes the data URL of the present pixels back to these
    pixels, ending a stroke and then doing [undo] and [redo], with the
    image loads completing in the order of issue, gives back exactly
    the pixels and the pen of the moment the stroke ended, with the
    cursor on the snapshot of that stroke. *)
Theorem undo_redo_after_commit_restores_view
        (toDataURL : Bitmap -> string)
        (decodeImage : string -> option Bitmap) (s : State)
        (canvas : HTMLCanvasElement) :
  canvasRef s = Some canvas ->
  getContext canvas <> None ->
  0 <= historyIndex s < Z.of_nat (List.length (history s)) ->
  decodeImage (toDataURL (bitmap canvas)) = Some (bitmap canvas) ->
  let s1 := endDrawing toDataURL s in
  let s2 := undoThenRedo decodeImage s1 in
  sameView s1 s2 /\
  history s2 = history s1 /\
  historyIndex s2 = historyIndex s1.
Proof.
  intros Hc Hx Hin Hd s1 s2.
  assert (Hinv : historyInv s) by (unfold historyInv; lia).
  pose proof (current_endDrawing toDataURL s canvas Hc Hinv) as Hcur.
  fold s1 in Hcur.
  assert (Hc1 : canvasRef s1 = Some canvas).
  { subst s1. unfold endDrawing. rewrite Hc. cbn. exact Hc. }
  assert (Hready1 : surfaceReady s1).
  { destruct (getContext canvas) as [ctx |] eqn:E; [| congruence].
    now exists canvas, ctx. }
  assert (Hpos1 : 0 < historyIndex s1).
  { subst s1. unfold endDrawing. rewrite Hc. cbn. lia. }
  assert (Hw1 : strokeWidth s1 = strokeWidth s /\ color s1 = color s).
  { subst s1. unfold endDrawing. rewrite Hc. cbn. now split. }
  destruct (undoThenRedo_view decodeImage s1 _ (bitmap canvas)
              Hready1 Hpos1 Hcur Hd) as (H1 & H2 & H3 & H4 & H5).
  fold s2 in H1, H2, H3, H4, H5. cbn in H4, H5.
  split; [| now split].
  unfold sameView. split; [| split].
  - rewrite H3. unfold surface. now rewrite Hc1.
  - rewrite H4. symmetry. apply Hw1.
  - rewrite H5. symmetry. apply Hw1.
Qed.

Lemma undo_redo_after_commit_restores_view_witness :
  let s := Sample.session
             (Sample.strokeA ++
              [PickColor Sample.blue; SlideStrokeWidth 10;
               MouseDown (Sample.at_ 58 26); MouseMove (Sample.at_ 68 36)]) in
  let s1 := endDrawing Sample.toDataURL s in
  sameView s1 (undoThenRedo Sample.decodeImage s1).
Proof.
  intros s s1.
  assert (Hc : canvasRef s = Some (Sample.canvasOf s))
    by (vm_compute; reflexivity).
  assert (Hx : getContext (Sample.canvasOf s) <> None)
    by (vm_compute; discriminate).
  assert (Hin : 0 <= historyIndex s < Z.of_nat (List.length (history s)))
    by (vm_compute; split; [discriminate | reflexivity]).
  assert (Hd : Sample.decodeImage
                 (Sample.toDataURL (bitmap (Sample.canvasOf s))) =
               Some (bitmap (Sample.canvasOf s)))
    by (vm_compute; reflexivity).
  pose proof (proj1 (undo_redo_after_commit_restores_view Sample.toDataURL
                       Sample.decodeImage s _ Hc Hx Hin Hd)) as H.
  vm_compute in H. vm_compute. exact H.
Defined.

(** X14. [downloadPNG] on a mounted canvas offers a file named
    [symptom-drawing.png]; right after a stroke has ended, with the
    cursor within its bounds, its content is the data URL recorded in
    the snapshot under the cursor. *)
Theorem download_matches_committed_snapshot
        (toDataURL : Bitmap -> string) (s : State) :
  canvasRef s <> None ->
  historyInv s ->
  let s' := endDrawing toDataURL s in
  exists h,
    current s' = Some h /\
    downloadPNG toDataURL s' =
    Some ("symptom-drawing.png"%string, DrawingHistory.dataURL h).
Proof.
  intros Hm Hinv s'.
  destruct (canvasRef s) as [canvas |] eqn:Hc; [| congruence].
  eexists. split.
  - subst s'. apply (current_endDrawing toDataURL s canvas Hc Hinv).
  - subst s'. unfold downloadPNG, endDrawing. rewrite Hc. cbn.
    now rewrite Hc.
Qed.

Lemma download_matches_committed_snapshot_witness :
  let s' := endDrawing Sample.toDataURL Sample.midStroke in
  exists h,
    current s' = Some h /\
    downloadPNG Sample.toDataURL s' =
    Some ("symptom-drawing.png"%string, DrawingHistory.dataURL h).
Proof.
  intros s'.
  assert (Hm : canvasRef Sample.midStroke <> None)
    by (vm_compute; discriminate).
  assert (Hinv : historyInv Sample.midStroke)
    by (vm_compute; split; discriminate).
  destruct (download_matches_committed_snapshot Sample.toDataURL
              Sample.midStroke Hm Hinv) as (h & H1 & H2).
  exists h. split.
  - vm_compute in H1. vm_compute. exact H1.
  - vm_compute in H2. vm_compute. exact H2.
Defined.

(** ** Clearing while an image is loading *)

(** X15. [clearCanvas] does not cancel image loads.  On a mounted
    canvas with a load in flight whose image decodes, clearing and then
    the completion of that load leave the history empty and the cursor
    at -1 while the surface shows the snapshot that was being loaded. *)
Theorem clear_does_not_cancel_loads
        (decodeImage : string -> option Bitmap) (s : State)
        (src : string) (rest : list string) (img : Bitmap) :
  surfaceReady s ->
  loading s = src :: rest ->
  decodeImage src = Some img ->
  loading (clearCanvas s) = src :: rest /\
  let s' := imageLoaded decodeImage 0 (clearCanvas s) in
  history s' = [] /\
  historyIndex s' = -1 /\
  surface s' = Some img /\
  loading s' = rest.
Proof.
  intros (canvas & ctx & Hc & Hx) Hl Hd.
  assert (Hclear : clearCanvas s =
            setHistoryIndex (-1) (setHistory [] (setCanvas (clearRect canvas) s))).
  { unfold clearCanvas. now rewrite Hc, Hx. }
  rewrite Hclear. split; [exact Hl |].
  unfold imageLoaded. cbn [loading setHistoryIndex setHistory setCanvas].
  rewrite Hl. cbn [nth_error firstn skipn app].
  unfold settle. rewrite Hd. unfold onload. cbn. repeat split.
Qed.

Lemma clear_does_not_cancel_loads_witness :
  let s := Sample.undoing in
  let s' := imageLoaded Sample.decodeImage 0 (clearCanvas s) in
  history s' = [] /\
  historyIndex s' = -1 /\
  surface s' = Some (Sample.sheet Sample.strokeA) /\
  loading s' = [].
Proof.
  intros s s'.
  assert (Hready : surfaceReady s).
  { unfold surfaceReady. do 2 eexists. split; vm_compute; reflexivity. }
  assert (Hl : loading s = ["data:image/png,#FF0000"%string])
    by (vm_compute; reflexivity).
  assert (Hd : Sample.decodeImage "data:image/png,#FF0000" =
               Some (Sample.sheet Sample.strokeA))
    by (vm_compute; reflexivity).
  exact (proj2 (clear_does_not_cancel_loads Sample.decodeImage s _ _ _
                  Hready Hl Hd)).
Defined.

(** ** What each event can change *)

Lemma endDrawing_canvas (toDataURL : Bitmap -> string) (s : State) :
  canvasRef (endDrawing toDataURL s) = canvasRef s.
Proof. unfold endDrawing. destruct (canvasRef s) eqn:E; [cbn |]; exact E. Qed.

(** X16. Pixels change only on a pointer move, on clear and when an
    image finishes loading: pointer-down, the end of a stroke, the
    palette, the slider, and the calls of [undo] and [redo] themselves
    leave the surface as it is. *)
Theorem pixels_change_only_by_draw_clear_load
        (toDataURL : Bitmap -> string)
        (decodeImage : string -> option Bitmap) (ev : Event) (s : State) :
  touchesPixels ev = false ->
  surface (dispatch toDataURL decodeImage ev s) = surface s.
Proof.
  intros Hev. unfold surface.
  destruct ev as [e | e | | | c | w | | | | k]; try discriminate Hev;
    cbn [dispatch].
  - unfold startDrawing. destruct (canvasRef s) as [canvas |] eqn:E;
      [| now rewrite E].
    destruct (getContext canvas); [reflexivity | now rewrite E].
  - now rewrite endDrawing_canvas.
  - now rewrite endDrawing_canvas.
  - reflexivity.
  - reflexivity.
  - now destruct (undo_frame s) as (_ & _ & ->).
  - now destruct (redo_frame s) as (_ & _ & ->).
Qed.

Lemma pixels_change_only_by_draw_clear_load_witness :
  surface (dispatch Sample.toDataURL Sample.decodeImage ClickUndo
             Sample.retouched) =
  surface Sample.retouched.
Proof.
  exact (pixels_change_only_by_draw_clear_load Sample.toDataURL
           Sample.decodeImage ClickUndo Sample.retouched eq_refl).
Defined.

(** X17. The pen changes only through the palette, the slider, [undo]
    and [redo]: drawing, ending a stroke, clearing and the completion of
    an image load leave [strokeWidth] and [color] as they are. *)
Theorem pen_changes_only_by_controls_and_history
        (toDataURL : Bitmap -> string)
        (decodeImage : string -> option Bitmap) (ev : Event) (s : State) :
  changesPen ev = false ->
  strokeWidth (dispatch toDataURL decodeImage ev s) = strokeWidth s /\
  color (dispatch toDataURL decodeImage ev s) = color s.
Proof.
  intros Hev.
  destruct ev as [e | e | | | c | w | | | | k]; try discriminate Hev;
    cbn [dispatch].
  - unfold startDrawing. destruct (canvasRef s) as [canvas |]; [| tauto].
    destruct (getContext canvas); cbn; tauto.
  - unfold draw. destruct (negb (isDrawing s)); [tauto |].
    destruct (canvasRef s) as [canvas |]; [| tauto].
    destruct (getContext canvas); cbn; tauto.
  - unfold endDrawing. destruct (canvasRef s); cbn; tauto.
  - unfold endDrawing. destruct (canvasRef s); cbn; tauto.
  - unfold clearCanvas. destruct (canvasRef s) as [canvas |]; [| tauto].
    destruct (getContext canvas); cbn; tauto.
  - destruct (imageLoaded_frame decodeImage k s) as (_ & _ & -> & -> & _).
    tauto.
Qed.

Lemma pen_changes_only_by_controls_and_history_witness :
  strokeWidth (dispatch Sample.toDataURL Sample.decodeImage ClickClear
                 Sample.retouched) = 3 /\
  color (dispatch Sample.toDataURL Sample.decodeImage ClickClear
           Sample.retouched) = Sample.green.
Proof.
  exact (pen_changes_only_by_controls_and_history Sample.toDataURL
           Sample.decodeImage ClickClear Sample.retouched eq_refl).
Defined.

(** ** The pen stays within the controls *)

Lemma Forall_firstn {A : Type} (P : A -> Prop) (n : nat) (l : list A) :
  Forall P l -> Forall P (firstn n l).
Proof.
  revert n. induction l as [| a l IH]; intros [| n] H; cbn; auto.
  inversion H; subst. constructor; auto.
Qed.

Lemma Forall_skipn {A : Type} (P : A -> Prop) (n : nat) (l : list A) :
  Forall P l -> Forall P (skipn n l).
Proof.
  revert n. induction l as [| a l IH]; intros [| n] H; cbn; auto.
  inversion H; subst. auto.
Qed.

Lemma Forall_slice {A : Type} (P : A -> Prop) (l : list A) (i j : Z) :
  Forall P l -> Forall P (slice l i j).
Proof. intros H. unfold slice. now apply Forall_firstn, Forall_skipn. Qed.

Lemma Forall_elementAt {A : Type} (P : A -> Prop) (l : list A) (i : Z)
      (v : A) :
  Forall P l -> elementAt l i = Some v -> P v.
Proof.
  intros H. unfold elementAt. destruct (i <? 0); [discriminate |].
  intros Hn. apply nth_error_In in Hn.
  rewrite Forall_forall in H. now apply H.
Qed.

Lemma penInv_loadHistoryState (r : State) (i : Z) (s : State) :
  penInv s ->
  history r = history s ->
  penInv (stateOf (loadHistoryState r i s)).
Proof.
  intros [Hpen Hall] Hh. unfold loadHistoryState.
  destruct (canvasRef s) as [canvas |]; [| now split].
  destruct (getContext canvas); [| now split].
  destruct (elementAt (history r) i) as [h |] eqn:E; [| now split].
  split; [| exact Hall]. cbn.
  rewrite Hh in E. exact (Forall_elementAt _ _ _ _ Hall E).
Qed.

Lemma penInv_dispatch (toDataURL : Bitmap -> string)
      (decodeImage : string -> option Bitmap) (ev : Event) (s : State) :
  fromControls ev ->
  penInv s ->
  penInv (dispatch toDataURL decodeImage ev s).
Proof.
  intros Hev Hs.
  destruct ev as [e | e | | | c | w | | | | k]; cbn [dispatch].
  - unfold startDrawing. destruct (canvasRef s) as [canvas |]; [| exact Hs].
    destruct (getContext canvas); exact Hs.
  - unfold draw. destruct (negb (isDrawing s)); [exact Hs |].
    destruct (canvasRef s) as [canvas |]; [| exact Hs].
    destruct (getContext canvas); exact Hs.
  - unfold endDrawing. destruct (canvasRef s); [| exact Hs].
    destruct Hs as [Hpen Hall]. split; [exact Hpen |]. cbn.
    apply Forall_app. split; [now apply Forall_slice |].
    constructor; [exact Hpen | constructor].
  - unfold endDrawing. destruct (canvasRef s); [| exact Hs].
    destruct Hs as [Hpen Hall]. split; [exact Hpen |]. cbn.
    apply Forall_app. split; [now apply Forall_slice |].
    constructor; [exact Hpen | constructor].
  - destruct Hs as [[Hw _] Hall]. split; [split |]; assumption.
  - destruct Hs as [[_ Hc] Hall]. split; [split |]; assumption.
  - unfold undo. destruct (0 <? historyIndex s); [| exact Hs].
    now apply penInv_loadHistoryState.
  - unfold redo.
    destruct (historyIndex s <? Z.of_nat (List.length (history s)) - 1);
      [| exact Hs].
    now apply penInv_loadHistoryState.
  - unfold clearCanvas. destruct (canvasRef s) as [canvas |]; [| exact Hs].
    destruct (getContext canvas); [| exact Hs].
    destruct Hs as [Hpen _]. split; [exact Hpen | constructor].
  - destruct (imageLoaded_frame decodeImage k s) as (Hh & _ & Hw & Hc & _).
    unfold penInv. now rewrite Hh, Hw, Hc.
Qed.

(** X18. In a session driven by the controls of the page, where the
    palette offers its ten colours and the slider widths from 1 to 20,
    the pen always has a width between 1 and 20 and a colour of the
    palette, and so does the pen recorded in every snapshot of the
    history: [undo] and [redo] can only bring back such a pen. *)
Theorem pen_stays_within_controls
        (toDataURL : Bitmap -> string)
        (decodeImage : string -> option Bitmap)
        (r : DOMRect) (evs : list Event) :
  Forall fromControls evs ->
  penInv (run toDataURL decodeImage evs (initialState r)).
Proof.
  assert (Hgen : forall s, penInv s -> Forall fromControls evs ->
                           penInv (run toDataURL decodeImage evs s)).
  { induction evs as [| ev evs IH]; intros s Hs Hevs; [exact Hs |].
    inversion Hevs; subst. cbn. apply IH; [| assumption].
    now apply penInv_dispatch. }
  intros Hevs. apply Hgen; [| exact Hevs].
  split; [| constructor].
  split; [cbn; lia | left; reflexivity].
Qed.

Lemma pen_stays_within_controls_witness :
  penInv Sample.raced.
Proof.
  apply (pen_stays_within_controls Sample.toDataURL Sample.decodeImage
           Sample.rect).
  repeat (constructor; [cbn; try lia; tauto |]). constructor.
Defined.
